(** * Verification of the CSV cleaning pipeline (csv_cleaning.py)

    A shallow embedding of [CSVCleaner] and proofs about it.

    Conventions of the embedding.
    - A Python [str] is a [string]; every [ascii] is read as the code point
      of the same number (the Latin-1 range), which is all the program's
      own literals use.
    - A pandas DataFrame read with [dtype=str, na_filter=False] is a header
      (list of labels) and a list of rows of strings; after numeric
      coercion a cell is a string, a number or absent (NaN/None).
    - Python exceptions are values of an error type; [try]/[except] are
      matches on it.
    - The pandas, chardet and file-system calls the program makes are
      variables of a section: the theorems hold for every behaviour of
      these libraries, unless a hypothesis says otherwise. *)

From Stdlib Require Import String Ascii List ZArith Lia Bool Arith PeanoNat.
From Stdlib Require Import DecimalString.
From Stdlib Require DecimalNat DecimalFacts.
Import ListNotations.
Open Scope string_scope.
Open Scope nat_scope.
Set Warnings "-abstract-large-number".

(** ** Python string methods used by the cleaner *)

Module PyStr.

(** [str.isspace] on one character, for code points below 256:
    TAB..CR, FS..US, SPACE, NEL and NBSP. *)
Definition is_space (c : ascii) : bool :=
  let n := nat_of_ascii c in
  ((9 <=? n) && (n <=? 13)) || ((28 <=? n) && (n <=? 32))
  || (n =? 133) || (n =? 160).

Fixpoint lstrip (s : string) : string :=
  match s with
  | EmptyString => EmptyString
  | String c t => if is_space c then lstrip t else s
  end.

Fixpoint rstrip (s : string) : string :=
  match s with
  | EmptyString => EmptyString
  | String c t =>
      match rstrip t with
      | EmptyString => if is_space c then EmptyString else String c EmptyString
      | r => String c r
      end
  end.

(** [s.strip()] *)
Definition strip (s : string) : string := rstrip (lstrip s).

(** [s.replace(",", "")] *)
Fixpoint remove_commas (s : string) : string :=
  match s with
  | EmptyString => EmptyString
  | String c t =>
      if Ascii.eqb c "," then remove_commas t else String c (remove_commas t)
  end.

(** [x in xs] for a list of strings, or the keys of a dict. *)
Definition mem (x : string) (xs : list string) : bool :=
  existsb (String.eqb x) xs.

End PyStr.

(** ** [datetime.strptime] and [strftime] for the directives in use *)

Module Strptime.

Record date := mkdate { year : nat; month : nat; day : nat }.

Inductive field := FY | Fm | Fd.

(** A compiled format: literal characters and directives. *)
Inductive item :=
| Lit (c : ascii)
| Dir (f : field).

(** ['%Y-%m-%d'] and the like; only [%Y], [%m] and [%d] occur in the
    program, between literal characters that are not blanks.  Any other
    directive is outside the model ([None]). *)
Fixpoint compile (fmt : string) : option (list item) :=
  match fmt with
  | EmptyString => Some []
  | String "%" EmptyString => None
  | String "%" (String c t) =>
      match compile t with
      | None => None
      | Some r =>
          if Ascii.eqb c "Y" then Some (Dir FY :: r)
          else if Ascii.eqb c "m" then Some (Dir Fm :: r)
          else if Ascii.eqb c "d" then Some (Dir Fd :: r)
          else None
      end
  | String c t =>
      match compile t with
      | None => None
      | Some r => Some (Lit c :: r)
      end
  end.

(** Character classes of the regular expressions that [_strptime]
    builds for the directives. *)
Definition in_range (lo hi : ascii) (c : ascii) : bool :=
  (nat_of_ascii lo <=? nat_of_ascii c) && (nat_of_ascii c <=? nat_of_ascii hi).

Definition is_digit : ascii -> bool := in_range "0" "9".
Definition is_char (a : ascii) : ascii -> bool := Ascii.eqb a.

(** One alternative of a directive's pattern: a sequence of classes. *)
Definition alt := list (ascii -> bool).

(** The alternatives, in the order the regex engine tries them:
    [%Y] is [\d\d\d\d]; [%m] is [1[0-2]|0[1-9]|[1-9]];
    [%d] is [3[0-1]|[1-2]\d|0[1-9]|[1-9]| [1-9]].  Among the characters
    of the model (code points below 256) the class [\d] is the ASCII
    digits; decimal digits of other scripts are outside the model. *)
Definition regex_of (f : field) : list alt :=
  match f with
  | FY => [[is_digit; is_digit; is_digit; is_digit]]
  | Fm => [[is_char "1"; in_range "0" "2"];
           [is_char "0"; in_range "1" "9"];
           [in_range "1" "9"]]
  | Fd => [[is_char "3"; in_range "0" "1"];
           [in_range "1" "2"; is_digit];
           [is_char "0"; in_range "1" "9"];
           [in_range "1" "9"];
           [is_char " "; in_range "1" "9"]]
  end.

(** Matches an alternative at the head of [s]: the matched text and the
    rest of the input. *)
Fixpoint match_alt (a : alt) (s : string) : option (string * string) :=
  match a with
  | [] => Some (EmptyString, s)
  | p :: a' =>
      match s with
      | EmptyString => None
      | String c t =>
          if p c then
            match match_alt a' t with
            | Some (m, r) => Some (String c m, r)
            | None => None
            end
          else None
      end
  end.

(** [int(text)] on the text a directive matched (digits, possibly after
    a blank). *)
Fixpoint int_of_acc (acc : nat) (s : string) : nat :=
  match s with
  | EmptyString => acc
  | String c t =>
      if is_digit c
      then int_of_acc (10 * acc + (nat_of_ascii c - nat_of_ascii "0")) t
      else int_of_acc acc t
  end.

Definition int_of (s : string) : nat := int_of_acc 0 s.

Definition set_field (f : field) (v : nat) (d : date) : date :=
  match f with
  | FY => mkdate v (month d) (day d)
  | Fm => mkdate (year d) v (day d)
  | Fd => mkdate (year d) (month d) v
  end.

(** First success over a list of choices (ordered alternation). *)
Fixpoint first_some {A B} (k : A -> option B) (xs : list A) : option B :=
  match xs with
  | [] => None
  | x :: r => match k x with Some b => Some b | None => first_some k r end
  end.

(** [format_regex.match(data_string)]: a backtracking match of the
    compiled format at the start of the input; the fields found and the
    text left over. *)
Fixpoint match_items (its : list item) (s : string) (acc : date)
  : option (date * string) :=
  match its with
  | [] => Some (acc, s)
  | Lit c :: r =>
      match s with
      | EmptyString => None
      | String c' t => if Ascii.eqb c c' then match_items r t acc else None
      end
  | Dir f :: r =>
      first_some
        (fun a => match match_alt a s with
                  | Some (m, s') => match_items r s' (set_field f (int_of m) acc)
                  | None => None
                  end)
        (regex_of f)
  end.

Definition is_leap (y : nat) : bool :=
  ((y mod 4 =? 0) && negb (y mod 100 =? 0)) || (y mod 400 =? 0).

Definition days_in_month (y m : nat) : nat :=
  match m with
  | 1 | 3 | 5 | 7 | 8 | 10 | 12 => 31
  | 4 | 6 | 9 | 11 => 30
  | 2 => if is_leap y then 29 else 28
  | _ => 0
  end.

(** The [datetime] constructor's range checks. *)
Definition valid_date (d : date) : bool :=
  (1 <=? year d) && (year d <=? 9999)
  && (1 <=? month d) && (month d <=? 12)
  && (1 <=? day d) && (day d <=? days_in_month (year d) (month d)).

(** [datetime.strptime(s, fmt)]; [None] is [ValueError]: the input does
    not match, unconverted data remains, or the fields are not a date.
    Fields the format lacks default to 1900-01-01. *)
Definition strptime (s fmt : string) : option date :=
  match compile fmt with
  | None => None
  | Some its =>
      match match_items its s (mkdate 1900 1 1) with
      | None => None
      | Some (d, rest) =>
          match rest with
          | EmptyString => if valid_date d then Some d else None
          | String _ _ => None
          end
      end
  end.

Definition decimal (n : nat) : string :=
  NilEmpty.string_of_uint (Nat.to_uint n).

Fixpoint zeros (n : nat) : string :=
  match n with
  | O => EmptyString
  | S k => String "0" (zeros k)
  end.

(** Zero-padded decimal of at least [w] digits. *)
Definition zfill (w n : nat) : string :=
  let s := decimal n in zeros (w - String.length s) ++ s.

(** [dt.strftime('%Y-%m-%d')], with the four-digit year of the Python
    documentation.  For a year below 1000 the C library of some
    platforms writes fewer digits; statements that rest on the width of
    the year say [1000 <= year]. *)
Definition strftime (d : date) : string :=
  zfill 4 (year d) ++ "-" ++ zfill 2 (month d) ++ "-" ++ zfill 2 (day d).

End Strptime.

(** ** Data model *)

(** A DataFrame: the header and the rows, every row as wide as the
    header ([wf]). *)
Record Frame (A : Type) := mkFrame {
  columns : list string;
  data : list (list A)
}.
Arguments mkFrame {A} _ _.
Arguments columns {A} _.
Arguments data {A} _.

Definition wf {A} (df : Frame A) : Prop :=
  Forall (fun r => length r = length (columns df)) (data df).

(** A value that [pd.to_numeric] produces: an int64, a finite float
    [m * 2^e], or an infinity.  NaN is not a number here: it is the absent
    cell [Null]. *)
Inductive number :=
| Int64 (z : Z)
| Float64 (m e : Z)
| Infinity (negative : bool).

(** A cell of the cleaned dataset. *)
Inductive cell :=
| Str (s : string)
| Num (n : number)
| Null.

(** [pd.isnull] on a cell. *)
Definition isnull (c : cell) : bool :=
  match c with
  | Null => true
  | _ => false
  end.

(** A computation that may raise [Exception(msg)]. *)
Inductive result (A : Type) :=
| Ok (a : A)
| Raise (msg : string).
Arguments Ok {A} _.
Arguments Raise {A} _.

Definition bind {A B} (r : result A) (k : A -> result B) : result B :=
  match r with
  | Ok a => k a
  | Raise m => Raise m
  end.

Notation "x <- c ;; k" := (bind c (fun x => k))
  (at level 61, c at next level, right associativity).

(** What one [pd.read_csv(file, encoding=...)] call does. *)
Inductive attempt :=
| Parsed (df : Frame string)
| UnicodeDecodeError
| OtherError (msg : string).

(** An input file: its path as printed, its base name and its bytes. *)
Record file := mkfile {
  f_path : string;
  f_name : string;
  f_bytes : string
}.

(** The class constants of [CSVCleaner]. *)
Record Config := mkConfig {
  COLUMN_MAPPING : list (string * string);
  NUMERIC_COLUMNS : list string;
  DATE_COLUMNS : list string;
  COLUMNS_TO_DROP : list string
}.

(** The libraries and the file system the cleaner calls.
    - [chardet_detect]: [chardet.detect(raw)['encoding']] on the sample;
      [Raise] is any exception of the [try] block of [detect_encoding].
    - [read_csv]: [pd.read_csv] of the file's bytes with one encoding,
      [dtype=str] and [na_filter=False]; the file is plain CSV text (what
      pandas infers from a file name, such as compression, is not
      modelled).
    - [to_datetime]: [pd.to_datetime(s, errors='coerce', dayfirst=False)];
      [None] is NaT or an exception.
    - [to_numeric]: [pd.to_numeric] with [errors='coerce'] on one string;
      [None] is NaN (a failed parse, or a parsed NaN).  The value is kept
      as parsed: the common dtype pandas then gives the column (int64 or
      float64) is not tracked, so the statements on numeric cells are
      about their being numbers or absent, not about the last digits of
      a float.
    - [to_csv]: the text [df.to_csv(index=False, na_rep='')] writes.
    - [write_error]: the exception, if any, of creating the output
      directory and writing the file at a path. *)
Record Env := mkEnv {
  chardet_detect : string -> result (option string);
  read_csv : string -> string -> attempt;
  to_datetime : string -> option Strptime.date;
  to_numeric : string -> option number;
  to_csv : Frame cell -> string;
  write_error : string -> option string
}.

(** [self.stats] *)
Record Stats := mkStats {
  files_processed : nat;
  rows_processed : nat;
  errors : list string
}.

(** The cleaner's state and the files it has written (newest first). *)
Record World := mkWorld {
  stats : Stats;
  disk : list (string * string)
}.

(** The dictionary [validate_data] returns; a flagged column is kept as
    its label (the source appends the label with the percentage). *)
Record ValidationReport := mkReport {
  total_rows : nat;
  empty_rows : nat;
  columns_with_nulls : list string
}.

(** ** Column and cell helpers (pandas indexing) *)

(** Positions of the columns labelled [l]. *)
Fixpoint positions_from (i : nat) (l : string) (hdr : list string) : list nat :=
  match hdr with
  | [] => []
  | h :: t =>
      if String.eqb l h then i :: positions_from (S i) l t
      else positions_from (S i) l t
  end.

Definition positions (l : string) (hdr : list string) : list nat :=
  positions_from 0 l hdr.

(** The elements at the given positions, in that order. *)
Definition pick {A} (ps : list nat) (xs : list A) : list A :=
  flat_map (fun i => match nth_error xs i with
                     | Some x => [x]
                     | None => []
                     end) ps.

(** [df[labels]]: for each label asked for, every column that carries it. *)
Definition select {A} (labels : list string) (df : Frame A) : Frame A :=
  let ps := flat_map (fun l => positions l (columns df)) labels in
  mkFrame (pick ps (columns df)) (map (pick ps) (data df)).

(** Keeps the entries of a row whose label satisfies [keep]. *)
Fixpoint mask {A} (keep : string -> bool) (hdr : list string) (row : list A)
  : list A :=
  match hdr, row with
  | h :: hs, v :: vs => if keep h then v :: mask keep hs vs else mask keep hs vs
  | _, _ => []
  end.

(** [df.loc[:, keep(df.columns)]] *)
Definition keep_columns {A} (keep : string -> bool) (df : Frame A) : Frame A :=
  mkFrame (filter keep (columns df)) (map (mask keep (columns df)) (data df)).

(** [df.drop(columns=[col])] *)
Definition drop_column {A} (col : string) (df : Frame A) : Frame A :=
  keep_columns (fun h => negb (String.eqb col h)) df.

(** Applies [f label value] to every cell. *)
Definition map_cells {A B} (f : string -> A -> B) (df : Frame A) : Frame B :=
  mkFrame (columns df)
          (map (fun r => map (fun hv => f (fst hv) (snd hv))
                             (combine (columns df) r))
               (data df)).

Fixpoint count_label (l : string) (hdr : list string) : nat :=
  match hdr with
  | [] => 0
  | h :: t => (if String.eqb l h then 1 else 0) + count_label l t
  end.

(** Some label of [ls] names more than one column: [df[label]] is then a
    DataFrame, not a Series. *)
Definition ambiguous (ls hdr : list string) : bool :=
  existsb (fun l => 2 <=? count_label l hdr) ls.

(** [d.get(k)] on a dict given as its items. *)
Fixpoint lookup (k : string) (d : list (string * string)) : option string :=
  match d with
  | [] => None
  | (k', v) :: t => if String.eqb k k' then Some v else lookup k t
  end.

Definition in_dict (k : string) (d : list (string * string)) : bool :=
  match lookup k d with
  | Some _ => true
  | None => false
  end.

(** ** The cleaner *)

Module CSVCleaner.

Section Methods.

Variable cfg : Config.
Variable env : Env.

(** [detect_encoding]: the guess of chardet on the first 10000 bytes,
    or ['utf-8'] when there is none or the detection raised. *)
Definition detect_encoding (f : file) : string :=
  match chardet_detect env (String.substring 0 10000 (f_bytes f)) with
  | Ok (Some e) => if String.eqb e "" then "utf-8" else e
  | Ok None => "utf-8"
  | Raise _ => "utf-8"
  end.

(** The list [encodings] of [read_csv_with_fallback]. *)
Definition encodings (f : file) : list string :=
  [detect_encoding f; "utf-8"; "latin1"; "cp1252"].

(** The [for encoding in encodings] loop (with [chunk_size] unset, as
    [main] constructs the cleaner): the encodings attempted, in order,
    and the frame of the first attempt that raised nothing. *)
Fixpoint try_encodings (bytes : string) (encs : list string)
  : list string * option (Frame string) :=
  match encs with
  | [] => ([], None)
  | e :: rest =>
      match read_csv env bytes e with
      | Parsed df => ([e], Some df)
      | UnicodeDecodeError =>
          let (tried, r) := try_encodings bytes rest in (e :: tried, r)
      | OtherError _ =>
          let (tried, r) := try_encodings bytes rest in (e :: tried, r)
      end
  end.

Definition attempted (f : file) : list string :=
  fst (try_encodings (f_bytes f) (encodings f)).

Definition read_csv_with_fallback (f : file) : result (Frame string) :=
  match snd (try_encodings (f_bytes f) (encodings f)) with
  | Some df => Ok df
  | None => Raise ("Failed to read " ++ f_path f ++ " with any encoding")
  end.

(** The labels [clean_column_names] warns about. *)
Definition unknown_cols (hdr : list string) : list string :=
  filter (fun col => negb (in_dict col (COLUMN_MAPPING cfg))
                     && negb (PyStr.mem col (COLUMNS_TO_DROP cfg))) hdr.

Definition clean_column_names (df : Frame string) : Frame string :=
  let df1 := keep_columns (fun h => negb (String.eqb h "")) df in
  mkFrame (map PyStr.strip (columns df1)) (data df1).

(** The new label [df.rename(columns=COLUMN_MAPPING)] gives a column. *)
Definition canonical (h : string) : string :=
  match lookup h (COLUMN_MAPPING cfg) with
  | Some c => c
  | None => h
  end.

(** The frame before the renaming: the mapped columns selected, then
    the loop over [COLUMNS_TO_DROP]. *)
Definition retained {A} (df : Frame A) : Frame A :=
  let valid_cols :=
    filter (fun col => in_dict col (COLUMN_MAPPING cfg)) (columns df) in
  fold_left (fun d col => if PyStr.mem col (columns d)
                          then drop_column col d else d)
            (COLUMNS_TO_DROP cfg) (select valid_cols df).

Definition filter_and_rename_columns {A} (df : Frame A) : Frame A :=
  let df2 := retained df in
  mkFrame (map canonical (columns df2)) (data df2).

(** One cell of [clean_string_data]: [.str.strip()] then
    [.replace('nan', '')]. *)
Definition clean_cell (s : string) : string :=
  let t := PyStr.strip s in
  if String.eqb t "nan" then "" else t.

(** Every column read with [dtype=str] has dtype object.  With a
    repeated label [df[col]] has no [dtype] attribute. *)
Definition clean_string_data (df : Frame string) : result (Frame string) :=
  if ambiguous (columns df) (columns df)
  then Raise "'DataFrame' object has no attribute 'dtype'"
  else Ok (map_cells (fun _ => clean_cell) df).

Definition date_formats : list string :=
  ["%Y-%m-%d"; "%m/%d/%Y"; "%d/%m/%Y"; "%Y/%m/%d"; "%m-%d-%Y"; "%d-%m-%Y"].

(** The [for fmt in date_formats] loop: the first format that parses. *)
Fixpoint first_format (fmts : list string) (s : string)
  : option Strptime.date :=
  match fmts with
  | [] => None
  | fmt :: rest =>
      match Strptime.strptime s fmt with
      | Some dt => Some dt
      | None => first_format rest s
      end
  end.

Definition parse_date_flexible (date_str : string) : string :=
  if String.eqb date_str "" || String.eqb date_str "nan" then ""
  else
    match first_format date_formats (PyStr.strip date_str) with
    | Some dt => Strptime.strftime dt
    | None =>
        match to_datetime env date_str with
        | Some dt => Strptime.strftime dt
        | None => ""
        end
    end.

(** The declared lists name each column once, so the loop over them
    rewrites each declared column that is present exactly once. *)
Definition process_date_columns (df : Frame string) : result (Frame string) :=
  if ambiguous (DATE_COLUMNS cfg) (columns df)
  then Raise "The truth value of a Series is ambiguous"
  else Ok (map_cells (fun col v => if PyStr.mem col (DATE_COLUMNS cfg)
                                   then parse_date_flexible v else v) df).

(** One cell of a numeric column: commas removed, stripped, [''] to
    [None], then [pd.to_numeric(errors='coerce')]. *)
Definition numeric_cell (s : string) : cell :=
  let t := PyStr.strip (PyStr.remove_commas s) in
  if String.eqb t "" then Null
  else match to_numeric env t with
       | Some n => Num n
       | None => Null
       end.

Definition process_numeric_columns (df : Frame string) : result (Frame cell) :=
  if ambiguous (NUMERIC_COLUMNS cfg) (columns df)
  then Raise "'DataFrame' object has no attribute 'str'"
  else Ok (map_cells (fun col v => if PyStr.mem col (NUMERIC_COLUMNS cfg)
                                   then numeric_cell v else Str v) df).

(** Number of absent cells in the column at position [i]. *)
Definition null_count (i : nat) (df : Frame cell) : nat :=
  length (filter (fun r => match nth_error r i with
                           | Some c => isnull c
                           | None => false
                           end) (data df)).

Fixpoint flagged_from (i : nat) (hdr : list string) (df : Frame cell)
  : list string :=
  match hdr with
  | [] => []
  | col :: t =>
      if length (data df) <? 2 * null_count i df
      then col :: flagged_from (S i) t df
      else flagged_from (S i) t df
  end.

(** [df.isnull().all(axis=1).sum()] and the columns more than 50% null. *)
Definition validate_data (df : Frame cell) : ValidationReport :=
  mkReport (length (data df))
           (length (filter (forallb isnull) (data df)))
           (flagged_from 0 (columns df) df).

(** The processing pipeline of [clean_csv], from the frame read to the
    frame written. *)
Definition pipeline (df : Frame string) : result (Frame cell) :=
  let df1 := clean_column_names df in
  let df2 := filter_and_rename_columns df1 in
  df3 <- clean_string_data df2 ;;
  df4 <- process_date_columns df3 ;;
  process_numeric_columns df4.

(** [df.empty] *)
Definition empty {A} (df : Frame A) : bool :=
  match columns df, data df with
  | [], _ => true
  | _, [] => true
  | _, _ => false
  end.

(** The body of the [try] of [clean_csv]: [Ok None] is the early
    [return False] on an empty frame, [Ok (Some df)] the frame written. *)
Definition try_clean (f : file) (output_path : string)
  : result (option (Frame cell)) :=
  df <- read_csv_with_fallback f ;;
  if empty df then Ok None
  else
    df' <- pipeline df ;;
    let validation := validate_data df' in (* logged only *)
    match write_error env output_path with
    | Some msg => Raise msg
    | None => Ok (Some df')
    end.

(** [f"Failed to clean {input_path}: {str(e)}"] *)
Definition error_msg (f : file) (e : string) : string :=
  "Failed to clean " ++ f_path f ++ ": " ++ e.

Definition clean_csv (w : World) (f : file) (output_path : string)
  : World * bool :=
  match try_clean f output_path with
  | Ok (Some df) =>
      (mkWorld (mkStats (files_processed (stats w) + 1)
                        (rows_processed (stats w) + length (data df))
                        (errors (stats w)))
               ((output_path, to_csv env df) :: disk w),
       true)
  | Ok None => (w, false)
  | Raise e =>
      (mkWorld (mkStats (files_processed (stats w))
                        (rows_processed (stats w))
                        (errors (stats w) ++ [error_msg f e]))
               (disk w),
       false)
  end.

Definition output_file (output_dir : string) (f : file) : string :=
  output_dir ++ "/" ++ "cleaned_" ++ f_name f.

(** [clean_directory]: [listing] is [None] when the input directory
    does not exist, else the files the glob found. *)
Definition clean_directory (w : World) (listing : option (list file))
           (output_dir : string) : World :=
  match listing with
  | None => w
  | Some [] => w
  | Some csv_files =>
      fold_left (fun w' f => fst (clean_csv w' f (output_file output_dir f)))
                csv_files w
  end.

(** Observations on one file of a run: the entry it adds to
    [stats['errors']] (none unless its processing raised), whether it
    is counted as processed, and the file it writes. *)
Definition recorded (output_dir : string) (f : file) : list string :=
  match try_clean f (output_file output_dir f) with
  | Raise e => [error_msg f e]
  | Ok _ => []
  end.

Definition cleaned (output_dir : string) (f : file) : bool :=
  match try_clean f (output_file output_dir f) with
  | Ok (Some _) => true
  | _ => false
  end.

Definition written (f : file) (output_path : string)
  : list (string * string) :=
  match try_clean f output_path with
  | Ok (Some df) => [(output_path, to_csv env df)]
  | _ => []
  end.

End Methods.

End CSVCleaner.

(** The constants of the class. *)
Definition config : Config :=
  mkConfig
    [("Material", "material_id"); ("Delivery #", "delivery_number");
     ("Ship-to", "ship_to"); ("Carrier", "carrier_name");
     ("ShpPoint", "shipping_point"); ("SO Created Date", "so_created_date");
     ("Ac.GI date", "ac_gi_date"); ("Delivery Date", "delivery_date");
     ("IOD from 3PL", "iod_from_3pl"); ("PlanShipSt", "planned_ship_start");
     ("S.Org(G)", "sales_org"); ("P/O #", "purchase_order");
     ("Type", "record_type"); ("Shipment", "shipment_number");
     ("Sold-to", "sold_to"); ("[WE]Name1", "customer_name");
     ("[WE]State", "customer_state"); ("Pro #", "pro_number");
     ("DOCrtDate", "document_created_date");
     ("Serial no. profile", "serial_no_profile"); ("Ship Crt", "ship_crt");
     ("G/I Date", "g_i_date"); ("PlanLoadSt", "planloadst");
     ("[WE]Street", "we_street"); ("[WE]City", "we_city");
     ("[WE]Country", "we_country"); ("[WE]Zipcode", "we_zipcode");
     ("Division", "division"); ("Quantity", "quantity");
     ("Plan G/I (DO)", "plan_g_i_do_"); ("Qty.Unit", "qty_unit");
     ("Delivery type", "delivery_type"); ("DOCrtTime", "docrttime");
     ("Material Group", "material_group"); ("Volume", "volume");
     ("Vol.Unit", "vol_unit"); ("Weight", "weight"); ("Wgt.Unit", "wgt_unit");
     ("ShTy", "shty"); ("S/O #", "s_o_"); ("S/O item#", "s_o_item_");
     ("P/O item#", "p_o_item_"); ("Cust.Grp", "cust_grp");
     ("Escort/Txt3", "escort_txt3"); ("ActLT", "actlt")]
    ["delivery_number"; "sales_org"; "shipment_number"; "quantity";
     "volume"; "weight"; "s_o_"; "s_o_item_"; "actlt"]
    ["so_created_date"; "ac_gi_date"; "delivery_date"; "iod_from_3pl";
     "planned_ship_start"; "document_created_date"; "ship_crt"; "g_i_date";
     "planloadst"; "plan_g_i_do_"]
    ["Status"].

(** The value of a non-empty string of ASCII digits, [None] for any other
    string. *)
Fixpoint digits_value (acc : Z) (s : string) : option Z :=
  match s with
  | EmptyString => Some acc
  | String c t =>
      if Strptime.is_digit c
      then digits_value (10 * acc + Z.of_nat (nat_of_ascii c - 48))%Z t
      else None
  end.

Definition decimal_literal (s : string) : option Z :=
  match s with
  | EmptyString => None
  | _ => digits_value 0%Z s
  end.

(** ** A concrete environment

    Used to run the cleaner on concrete files: four small files and what
    the libraries answer on them. *)

Module Demo.

Definition newline : string := String (ascii_of_nat 10) EmptyString.
Definition quote : string := String (ascii_of_nat 34) EmptyString.

Definition quantities_csv : string :=
  "Material,Quantity,Status" ++ newline
  ++ "M1," ++ quote ++ "1,234" ++ quote ++ ",ok" ++ newline.

Definition dates_csv : string :=
  "Material,Delivery Date" ++ newline ++ " M2 ,03/04/2024" ++ newline.

Definition blank_row_csv : string :=
  "Material,Carrier" ++ newline ++ "," ++ newline.

(** A file of zero bytes: [pd.read_csv] raises [EmptyDataError] under
    every encoding. *)
Definition zero_bytes : string := "".

Definition read_csv (bytes encoding : string) : attempt :=
  if String.eqb bytes quantities_csv then
    Parsed (mkFrame ["Material"; "Quantity"; "Status"] [["M1"; "1,234"; "ok"]])
  else if String.eqb bytes dates_csv then
    Parsed (mkFrame ["Material"; "Delivery Date"] [[" M2 "; "03/04/2024"]])
  else if String.eqb bytes blank_row_csv then
    Parsed (mkFrame ["Material"; "Carrier"] [[""; ""]])
  else OtherError "No columns to parse from file".

Definition chardet_detect (sample : string) : result (option string) :=
  if String.eqb sample "" then Ok None else Ok (Some "ascii").

Definition to_numeric (s : string) : option number :=
  option_map Int64 (decimal_literal s).

Definition show_cell (c : cell) : string :=
  match c with
  | Str s => s
  | Num (Int64 z) => NilEmpty.string_of_int (Z.to_int z)
  | Num _ => "?"
  | Null => ""
  end.

Definition to_csv (df : Frame cell) : string :=
  String.concat newline
    (String.concat "," (columns df)
     :: map (fun r => String.concat "," (map show_cell r)) (data df)).

Definition env : Env :=
  mkEnv chardet_detect read_csv (fun _ => None) to_numeric to_csv
        (fun _ => None).

Definition quantities : file := mkfile "csv/quantities.csv" "quantities.csv" quantities_csv.
Definition dates : file := mkfile "csv/dates.csv" "dates.csv" dates_csv.
Definition blank_row : file := mkfile "csv/blank.csv" "blank.csv" blank_row_csv.
Definition corrupt : file := mkfile "csv/corrupt.csv" "corrupt.csv" zero_bytes.

Definition fresh : World := mkWorld (mkStats 0 0 []) [].

(** The class constants with the label "Status" mapped as well as
    dropped. *)
Definition config_status : Config :=
  mkConfig (("Status", "status") :: COLUMN_MAPPING config)
           (NUMERIC_COLUMNS config) (DATE_COLUMNS config)
           (COLUMNS_TO_DROP config).

End Demo.

(** ** What the specification says, where it differs in wording *)

(** Duplicates removed, first occurrences kept, order preserved. *)
Fixpoint dedup_first (seen xs : list string) : list string :=
  match xs with
  | [] => []
  | x :: r =>
      if PyStr.mem x seen then dedup_first seen r
      else x :: dedup_first (x :: seen) r
  end.

(** A field that is absent or the empty string. *)
Definition absent_or_empty (c : cell) : bool :=
  match c with
  | Null => true
  | Str s => String.eqb s ""
  | Num _ => false
  end.

(** The library reads a plain string of digits as that integer. *)
Definition reads_integers (env : Env) : Prop :=
  forall s z, decimal_literal s = Some z ->
              (z < 2 ^ 63)%Z -> to_numeric env s = Some (Int64 z).

(** ** Notions used in further statements *)

(** The first, respectively last, character is a blank. *)
Definition head_blank (s : string) : bool :=
  match s with
  | EmptyString => false
  | String c _ => PyStr.is_space c
  end.

Fixpoint last_blank (s : string) : bool :=
  match s with
  | EmptyString => false
  | String c EmptyString => PyStr.is_space c
  | String _ t => last_blank t
  end.

(** What the three cell stages of the pipeline make of one raw cell of
    the column [col]: the field cleaner, then the date parser if the
    column is a date column, then the numeric parser if it is a numeric
    column. *)
Definition coerce (cfg : Config) (env : Env) (col raw : string) : cell :=
  let s := CSVCleaner.clean_cell raw in
  let s' := if PyStr.mem col (DATE_COLUMNS cfg)
            then CSVCleaner.parse_date_flexible env s else s in
  if PyStr.mem col (NUMERIC_COLUMNS cfg)
  then CSVCleaner.numeric_cell env s' else Str s'.

(** Observations on one file of a run: it was skipped as empty; the
    rows it adds to [stats['rows_processed']]. *)
Definition skipped (cfg : Config) (env : Env) (output_dir : string) (f : file)
  : bool :=
  match CSVCleaner.try_clean cfg env f (CSVCleaner.output_file output_dir f) with
  | Ok None => true
  | _ => false
  end.

Definition rows_of (cfg : Config) (env : Env) (output_dir : string) (f : file)
  : nat :=
  match CSVCleaner.try_clean cfg env f (CSVCleaner.output_file output_dir f) with
  | Ok (Some df) => length (data df)
  | _ => 0
  end.

(** A cell without the value of its number: text and absence are kept. *)
Definition forget_value (c : cell) : cell :=
  match c with
  | Num _ => Num (Int64 0)
  | _ => c
  end.

(** No explicit format reads the text as a date before the year 1000.
    (For such years the width of the rendered year depends on the C
    library behind [strftime].) *)
Definition from_year_1000 (s : string) : bool :=
  match CSVCleaner.first_format CSVCleaner.date_formats (PyStr.strip s) with
  | Some d => 1000 <=? Strptime.year d
  | None => true
  end.

(** No string occurs twice. *)
Fixpoint nodupb (xs : list string) : bool :=
  match xs with
  | [] => true
  | x :: r => negb (PyStr.mem x r) && nodupb r
  end.

(** * Properties *)

Import CSVCleaner.

(** ** Strings *)

Lemma mem_In x xs : PyStr.mem x xs = true <-> In x xs.
Proof.
  unfold PyStr.mem. rewrite existsb_exists. split.
  - intros [y [Hy He]]. apply String.eqb_eq in He. now subst.
  - intros H. exists x. split; [assumption | apply String.eqb_refl].
Qed.

Lemma mem_false x xs : PyStr.mem x xs = false <-> ~ In x xs.
Proof.
  rewrite <- mem_In. destruct (PyStr.mem x xs); split; congruence.
Qed.

(** ** Dates *)

Section Dates.

Variable env : Env.

Lemma first_format_first fmts s :
  forall pre fmt post dt,
    fmts = (pre ++ fmt :: post)%list ->
    (forall g, In g pre -> Strptime.strptime s g = None) ->
    Strptime.strptime s fmt = Some dt ->
    first_format fmts s = Some dt.
Proof.
  intros pre. revert fmts.
  induction pre as [|g pre IH]; intros fmts fmt post dt -> Hpre Hfmt; simpl.
  - now rewrite Hfmt.
  - rewrite (Hpre g (or_introl eq_refl)).
    apply (IH _ fmt post); auto. intros g' Hg'. apply Hpre. now right.
Qed.

(** C2: "03/04/2024" is read month first, giving "2024-03-04", although
    the day-first pattern, which comes later in the list, also parses
    it (as 3 April); so does a cell of the date column
    "delivery_date"; and for every input, the first pattern of the
    list that parses it determines the result, whatever later patterns
    would make of it. *)
Theorem ambiguous_date_earlier_pattern_wins :
  parse_date_flexible env "03/04/2024" = "2024-03-04"
  /\ process_date_columns config env
       (mkFrame ["material_id"; "delivery_date"] [["M2"; "03/04/2024"]])
     = Ok (mkFrame ["material_id"; "delivery_date"] [["M2"; "2024-03-04"]])
  /\ Strptime.strptime "03/04/2024" "%m/%d/%Y" = Some (Strptime.mkdate 2024 3 4)
  /\ Strptime.strptime "03/04/2024" "%d/%m/%Y" = Some (Strptime.mkdate 2024 4 3)
  /\ (forall s pre fmt post dt,
         s <> "" -> s <> "nan" ->
         date_formats = (pre ++ fmt :: post)%list ->
         (forall g, In g pre -> Strptime.strptime (PyStr.strip s) g = None) ->
         Strptime.strptime (PyStr.strip s) fmt = Some dt ->
         parse_date_flexible env s = Strptime.strftime dt).
Proof.
  do 4 (split; [vm_compute; reflexivity|]).
  intros s pre fmt post dt Hne Hnan Hsplit Hpre Hfmt.
  unfold parse_date_flexible.
  apply String.eqb_neq in Hne. apply String.eqb_neq in Hnan.
  rewrite Hne, Hnan. cbn [orb].
  now rewrite (first_format_first _ _ pre fmt post dt Hsplit Hpre Hfmt).
Qed.

(** C5: 15 January 2024 written in each of the six explicit formats is
    normalized to "2024-01-15". *)
Theorem six_formats_round_trip :
  parse_date_flexible env "2024-01-15" = "2024-01-15"
  /\ parse_date_flexible env "01/15/2024" = "2024-01-15"
  /\ parse_date_flexible env "15/01/2024" = "2024-01-15"
  /\ parse_date_flexible env "2024/01/15" = "2024-01-15"
  /\ parse_date_flexible env "01-15-2024" = "2024-01-15"
  /\ parse_date_flexible env "15-01-2024" = "2024-01-15".
Proof.
  repeat split; vm_compute; reflexivity.
Qed.

End Dates.

(** ** Frames *)

Lemma combine_snd {A} (hdr : list string) (f : A -> A) :
  forall r, length r = length hdr ->
            map (fun hv => f (snd hv)) (combine hdr r) = map f r.
Proof.
  induction hdr as [|h hdr IH]; intros [|v r] Hlen; simpl in *;
    try discriminate; try reflexivity.
  f_equal. apply IH. lia.
Qed.

Lemma count_label_notin l hdr : ~ In l hdr -> count_label l hdr = 0.
Proof.
  induction hdr as [|h hdr IH]; simpl; intros Hn; [reflexivity|].
  destruct (String.eqb_spec l h) as [->|_].
  - exfalso. apply Hn. now left.
  - apply IH. intros H. apply Hn. now right.
Qed.

Lemma count_label_nodup l hdr : NoDup hdr -> count_label l hdr <= 1.
Proof.
  induction 1 as [|h hdr Hnin _ IH]; simpl; [lia|].
  destruct (String.eqb_spec l h) as [->|_]; [|lia].
  rewrite (count_label_notin _ _ Hnin). lia.
Qed.

Lemma ambiguous_nodup ls hdr : NoDup hdr -> ambiguous ls hdr = false.
Proof.
  intros Hnd. unfold ambiguous.
  induction ls as [|l ls IH]; cbn [existsb]; [reflexivity|].
  rewrite IH, orb_false_r. apply Nat.leb_gt.
  pose proof (count_label_nodup l hdr Hnd). lia.
Qed.

(** ** The field cleaner *)

(** C10: the field cleaner turns a cell into the empty string exactly
    when its trimmed text is empty or is the literal "nan"; every other
    text, such as "N/A", "null", "NaN" or "None", is only trimmed.  A
    data value "nan" thus comes out like a missing one (the date parser
    too answers the empty string on "nan").  This happens
    in every column and before the date and numeric stages run. *)
Theorem nan_is_the_only_null_token :
  (forall s, PyStr.strip s = "nan" -> clean_cell s = "")
  /\ (forall s, PyStr.strip s <> "nan" -> clean_cell s = PyStr.strip s)
  /\ (forall s, clean_cell s = "" <-> PyStr.strip s = "" \/ PyStr.strip s = "nan")
  /\ clean_cell "nan" = clean_cell ""
  /\ clean_cell "N/A" = "N/A" /\ clean_cell "null" = "null"
  /\ clean_cell "NaN" = "NaN" /\ clean_cell "None" = "None"
  /\ (forall env, parse_date_flexible env "nan" = "")
  /\ (forall df df', wf df -> clean_string_data df = Ok df' ->
        columns df' = columns df /\ data df' = map (map clean_cell) (data df))
  /\ (forall cfg env raw out, pipeline cfg env raw = Ok out ->
        exists df3,
          clean_string_data
            (filter_and_rename_columns cfg (clean_column_names raw)) = Ok df3
          /\ (df4 <- process_date_columns cfg env df3 ;;
              process_numeric_columns cfg env df4) = Ok out).
Proof.
  assert (Hnan : forall s, PyStr.strip s = "nan" -> clean_cell s = "").
  { intros s H. unfold clean_cell. now rewrite H. }
  assert (Hother : forall s, PyStr.strip s <> "nan" -> clean_cell s = PyStr.strip s).
  { intros s H. unfold clean_cell. apply String.eqb_neq in H. now rewrite H. }
  split; [exact Hnan|]. split; [exact Hother|].
  split.
  { intros s. destruct (string_dec (PyStr.strip s) "nan") as [E|E].
    - rewrite (Hnan s E). split; auto.
    - rewrite (Hother s E). split; [auto|]. intros [H|H]; congruence. }
  do 5 (split; [reflexivity|]).
  split; [reflexivity|].
  split.
  - intros df df' Hwf H. unfold clean_string_data in H.
    destruct (ambiguous (columns df) (columns df)); [discriminate|].
    injection H as <-. split; [reflexivity|]. simpl.
    apply map_ext_in. intros r Hr.
    apply (combine_snd (columns df) clean_cell).
    unfold wf in Hwf. rewrite Forall_forall in Hwf. now apply Hwf.
  - intros cfg env raw out H. unfold pipeline in H.
    destruct (clean_string_data
                (filter_and_rename_columns cfg (clean_column_names raw)))
      as [df3|msg] eqn:E; simpl in H; [|discriminate].
    exists df3. split; [reflexivity|exact H].
Qed.

(** ** The numeric normalizer *)

Lemma demo_reads_integers : reads_integers Demo.env.
Proof.
  intros s z Hs _. simpl. unfold Demo.to_numeric. now rewrite Hs.
Qed.

(** C6: with a numeric parser that reads digit strings as integers, a
    cell "1,234" of a numeric column becomes the number 1234; an empty
    cell, or one that is empty once commas and surrounding blanks are
    removed, becomes absent (neither zero nor an error); a cell the
    parser rejects becomes absent too, and the stage still returns the
    whole frame, with every row. *)
Theorem numeric_cleaning cfg env :
  reads_integers env ->
  numeric_cell env "1,234" = Num (Int64 1234)
  /\ numeric_cell env "" = Null
  /\ (forall s, PyStr.strip (PyStr.remove_commas s) = "" ->
                numeric_cell env s = Null)
  /\ (forall s, to_numeric env (PyStr.strip (PyStr.remove_commas s)) = None ->
                numeric_cell env s = Null)
  /\ (forall df, NoDup (columns df) ->
        process_numeric_columns cfg env df
        = Ok (map_cells (fun col v => if PyStr.mem col (NUMERIC_COLUMNS cfg)
                                      then numeric_cell env v else Str v) df)
        /\ forall out, process_numeric_columns cfg env df = Ok out ->
                       columns out = columns df
                       /\ length (data out) = length (data df)).
Proof.
  intros Hint. split.
  { unfold numeric_cell.
    replace (PyStr.strip (PyStr.remove_commas "1,234")) with "1234"
      by (vm_compute; reflexivity).
    rewrite (Hint "1234" 1234%Z); [reflexivity|reflexivity|lia]. }
  split; [reflexivity|].
  split.
  { intros s H. unfold numeric_cell. now rewrite H. }
  split.
  { intros s H. unfold numeric_cell. rewrite H.
    now destruct (String.eqb _ ""). }
  intros df Hnd. unfold process_numeric_columns.
  rewrite (ambiguous_nodup _ _ Hnd). split; [reflexivity|].
  intros out H. injection H as <-. simpl. split; [reflexivity|].
  apply length_map.
Qed.

Lemma numeric_cleaning_witness :
  reads_integers Demo.env
  /\ numeric_cell Demo.env "1,234" = Num (Int64 1234)
  /\ numeric_cell Demo.env "" = Null.
Proof.
  split; [exact demo_reads_integers|].
  destruct (numeric_cleaning config Demo.env demo_reads_integers)
    as [H1 [H2 _]].
  split; assumption.
Defined.

(** ** The row reader *)

Section Reader.

Variable env : Env.

Lemma try_encodings_prefix b encs :
  exists rest, encs = (fst (try_encodings env b encs) ++ rest)%list.
Proof.
  induction encs as [|e encs [rest IH]]; simpl.
  - now exists [].
  - destruct (read_csv env b e).
    + exists encs. reflexivity.
    + destruct (try_encodings env b encs) as [tried r]. simpl in *.
      exists rest. now rewrite IH at 1.
    + destruct (try_encodings env b encs) as [tried r]. simpl in *.
      exists rest. now rewrite IH at 1.
Qed.

Lemma try_encodings_fail b encs :
  snd (try_encodings env b encs) = None
  <-> (forall e, In e encs -> forall d, read_csv env b e <> Parsed d).
Proof.
  induction encs as [|e encs IH]; simpl.
  - split; [intros _ e []|reflexivity].
  - destruct (read_csv env b e) eqn:E.
    + simpl. split; [discriminate|].
      intros H. exfalso. exact (H e (or_introl eq_refl) df E).
    + destruct (try_encodings env b encs) as [tried r]. simpl in *.
      rewrite IH. split.
      * intros H e' [<-|He'] d; [congruence|now apply H].
      * intros H e' He'. apply H. now right.
    + destruct (try_encodings env b encs) as [tried r]. simpl in *.
      rewrite IH. split.
      * intros H e' [<-|He'] d; [congruence|now apply H].
      * intros H e' He'. apply H. now right.
Qed.

Lemma try_encodings_fail_all b encs :
  snd (try_encodings env b encs) = None ->
  fst (try_encodings env b encs) = encs.
Proof.
  induction encs as [|e encs IH]; simpl; [reflexivity|].
  destruct (read_csv env b e).
  - discriminate.
  - destruct (try_encodings env b encs) as [tried r]. simpl in *.
    intros H. now rewrite IH.
  - destruct (try_encodings env b encs) as [tried r]. simpl in *.
    intros H. now rewrite IH.
Qed.

Lemma try_encodings_ok b encs df :
  snd (try_encodings env b encs) = Some df ->
  exists pre e post,
    encs = (pre ++ e :: post)%list
    /\ (forall e', In e' pre -> forall d, read_csv env b e' <> Parsed d)
    /\ read_csv env b e = Parsed df
    /\ fst (try_encodings env b encs) = (pre ++ [e])%list.
Proof.
  induction encs as [|e encs IH]; simpl; [discriminate|].
  destruct (read_csv env b e) eqn:E.
  - simpl. intros H. injection H as ->.
    exists [], e, encs. split; [reflexivity|]. split; [intros e' []|].
    split; [assumption|reflexivity].
  - destruct (try_encodings env b encs) as [tried r]. simpl in *.
    intros H. destruct (IH H) as (pre & e0 & post & -> & Hpre & He0 & Htr).
    exists (e :: pre), e0, post. split; [reflexivity|].
    split; [intros e' [<-|He'] d; [congruence|now apply Hpre]|].
    split; [assumption|]. simpl. now rewrite Htr.
  - destruct (try_encodings env b encs) as [tried r]. simpl in *.
    intros H. destruct (IH H) as (pre & e0 & post & -> & Hpre & He0 & Htr).
    exists (e :: pre), e0, post. split; [reflexivity|].
    split; [intros e' [<-|He'] d; [congruence|now apply Hpre]|].
    split; [assumption|]. simpl. now rewrite Htr.
Qed.

(** C3, as the code has it: the candidate list is the guess followed
    by the three fixed names, four entries with nothing removed; the
    encodings attempted are a prefix of it; it is free of duplicates
    exactly when the guess is none of the fixed names; and when no
    attempt succeeds all four entries are attempted, a repeated name
    twice. *)
Theorem candidate_list_is_fixed (f : file) :
  encodings env f = [detect_encoding env f; "utf-8"; "latin1"; "cp1252"]
  /\ (exists rest, encodings env f = (attempted env f ++ rest)%list)
  /\ (dedup_first [] (encodings env f) = encodings env f
      <-> ~ In (detect_encoding env f) ["utf-8"; "latin1"; "cp1252"])
  /\ ((forall e, In e (encodings env f) ->
                 forall d, read_csv env (f_bytes f) e <> Parsed d) ->
      attempted env f = encodings env f).
Proof.
  split; [reflexivity|].
  split; [apply try_encodings_prefix|].
  split.
  - unfold encodings. generalize (detect_encoding env f). intros g.
    cbn [dedup_first PyStr.mem existsb].
    destruct (String.eqb_spec "utf-8" g) as [<-|Hu].
    { simpl. split; [discriminate|]. intros H. exfalso. apply H. now left. }
    destruct (String.eqb_spec "latin1" g) as [<-|Hl].
    { simpl. split; [discriminate|].
      intros H. exfalso. apply H. right. now left. }
    destruct (String.eqb_spec "cp1252" g) as [<-|Hc].
    { simpl. split; [discriminate|].
      intros H. exfalso. apply H. right. right. now left. }
    simpl. split; [|reflexivity].
    intros _ [H|[H|[H|[]]]]; congruence.
  - intros H. unfold attempted.
    apply try_encodings_fail_all. now apply try_encodings_fail.
Qed.

(** C4, as the code has it: the read fails exactly when every attempt
    raises, whether a decode error or any other exception; the failure
    carries the file path; otherwise the frame returned is that of the
    first candidate whose read raised nothing, and that candidate is
    the last one attempted. *)
Theorem read_fails_iff_every_attempt_raises (f : file) :
  ((exists msg, read_csv_with_fallback env f = Raise msg)
   <-> (forall e, In e (encodings env f) ->
                  forall d, read_csv env (f_bytes f) e <> Parsed d))
  /\ (forall msg, read_csv_with_fallback env f = Raise msg ->
        msg = "Failed to read " ++ f_path f ++ " with any encoding")
  /\ (forall df, read_csv_with_fallback env f = Ok df ->
        exists pre e post,
          encodings env f = (pre ++ e :: post)%list
          /\ (forall e', In e' pre ->
                         forall d, read_csv env (f_bytes f) e' <> Parsed d)
          /\ read_csv env (f_bytes f) e = Parsed df
          /\ attempted env f = (pre ++ [e])%list).
Proof.
  unfold read_csv_with_fallback, attempted.
  rewrite <- try_encodings_fail.
  destruct (snd (try_encodings env (f_bytes f) (encodings env f)))
    as [df0|] eqn:E.
  - split; [split; [intros [m Hm]; discriminate|discriminate]|].
    split; [discriminate|].
    intros df H. injection H as <-. now apply try_encodings_ok.
  - split; [split; [reflexivity|intros _; eexists; reflexivity]|].
    split; [|discriminate].
    intros msg H. now injection H as <-.
Qed.

End Reader.

(** C3, as stated, fails: on a file of zero bytes the detection gives
    no guess, the default "utf-8" heads the list, and the list holds
    "utf-8" twice; every read raising, "utf-8" is attempted twice. *)
Lemma candidate_list_keeps_duplicates :
  ~ (forall env f,
        encodings env f
        = dedup_first [] [detect_encoding env f; "utf-8"; "latin1"; "cp1252"]
        /\ NoDup (attempted env f)).
Proof.
  intros H. destruct (H Demo.env Demo.corrupt) as [Heq _].
  vm_compute in Heq. discriminate.
Qed.

(** C4, as stated, fails: on a file of zero bytes every attempt raises
    an error that is not a decode error, and the read fails all the
    same. *)
Lemma read_fails_without_decode_error :
  ~ (forall env f,
        (exists msg, read_csv_with_fallback env f = Raise msg)
        <-> (forall e, In e (encodings env f) ->
                       read_csv env (f_bytes f) e = UnicodeDecodeError)).
Proof.
  intros H. destruct (H Demo.env Demo.corrupt) as [Hfail _].
  assert (Hraise : exists msg,
             read_csv_with_fallback Demo.env Demo.corrupt = Raise msg).
  { eexists. vm_compute. reflexivity. }
  specialize (Hfail Hraise "utf-8").
  assert (Hin : In "utf-8" (encodings Demo.env Demo.corrupt)).
  { vm_compute. now left. }
  specialize (Hfail Hin). vm_compute in Hfail. discriminate.
Qed.

(** ** The column normalizer *)

Lemma pick_flat_map {A B} (f : B -> list nat) (ls : list B) (xs : list A) :
  pick (flat_map f ls) xs = flat_map (fun l => pick (f l) xs) ls.
Proof.
  unfold pick. induction ls as [|l ls IH]; simpl; [reflexivity|].
  now rewrite flat_map_app, IH.
Qed.

Lemma pick_positions_from l :
  forall suf pre,
    pick (positions_from (length pre) l suf) (pre ++ suf)%list
    = repeat l (count_label l suf).
Proof.
  induction suf as [|h suf IH]; intros pre; simpl; [reflexivity|].
  assert (Hnext : pick (positions_from (S (length pre)) l suf)
                       (pre ++ h :: suf)%list
                  = repeat l (count_label l suf)).
  { specialize (IH (pre ++ [h])%list).
    rewrite length_app, <- app_assoc in IH. simpl in IH.
    now rewrite Nat.add_1_r in IH. }
  destruct (String.eqb_spec l h) as [->|_].
  - unfold pick in *. simpl. rewrite Hnext.
    rewrite nth_error_app2 by lia. rewrite Nat.sub_diag. reflexivity.
  - exact Hnext.
Qed.

Lemma select_columns {A} (ls : list string) (df : Frame A) :
  columns (select ls df)
  = flat_map (fun l => repeat l (count_label l (columns df))) ls.
Proof.
  unfold select. simpl. rewrite pick_flat_map.
  apply flat_map_ext. intros l. apply (pick_positions_from l (columns df) []).
Qed.

Lemma count_label_pos l hdr : In l hdr -> 1 <= count_label l hdr.
Proof.
  induction hdr as [|h hdr IH]; simpl; [intros []|].
  intros [->|H].
  - rewrite String.eqb_refl. lia.
  - specialize (IH H). lia.
Qed.

Lemma in_select_columns {A} (ls : list string) (df : Frame A) x :
  In x (columns (select ls df)) <-> In x ls /\ In x (columns df).
Proof.
  rewrite select_columns, in_flat_map. split.
  - intros [l [Hl Hx]]. apply repeat_spec in Hx as Hxl. subst x.
    split; [assumption|].
    destruct (in_dec string_dec l (columns df)) as [Hin|Hnin]; [assumption|].
    rewrite (count_label_notin _ _ Hnin) in Hx. destruct Hx.
  - intros [Hl Hc]. exists x. split; [assumption|].
    pose proof (count_label_pos _ _ Hc).
    destruct (count_label x (columns df)); [lia|]. now left.
Qed.

Lemma select_columns_nodup {A} (ls : list string) (df : Frame A) :
  NoDup (columns df) -> (forall l, In l ls -> In l (columns df)) ->
  columns (select ls df) = ls.
Proof.
  intros Hnd Hsub. rewrite select_columns.
  induction ls as [|l ls IH]; simpl; [reflexivity|].
  rewrite IH by (intros l' Hl'; apply Hsub; now right).
  pose proof (count_label_nodup l _ Hnd).
  pose proof (count_label_pos l _ (Hsub l (or_introl eq_refl))).
  replace (count_label l (columns df)) with 1 by lia. reflexivity.
Qed.

Lemma filter_id {A} (p : A -> bool) (xs : list A) :
  (forall x, In x xs -> p x = true) -> filter p xs = xs.
Proof.
  induction xs as [|x xs IH]; simpl; intros H; [reflexivity|].
  rewrite (H x (or_introl eq_refl)). f_equal. apply IH.
  intros y Hy. apply H. now right.
Qed.

Lemma filter_filter {A} (p q : A -> bool) (xs : list A) :
  filter q (filter p xs) = filter (fun x => p x && q x) xs.
Proof.
  induction xs as [|x xs IH]; simpl; [reflexivity|].
  destruct (p x); simpl; [destruct (q x)|]; now rewrite IH.
Qed.

Lemma filter_none {A} (p : A -> bool) (xs : list A) :
  (forall x, In x xs -> p x = false) -> filter p xs = [].
Proof.
  induction xs as [|x xs IH]; simpl; intros H; [reflexivity|].
  rewrite (H x (or_introl eq_refl)). apply IH.
  intros y Hy. apply H. now right.
Qed.

Section Columns.

Variable cfg : Config.

Lemma drop_step_columns {A} (d : Frame A) col :
  columns (if PyStr.mem col (columns d) then drop_column col d else d)
  = filter (fun h => negb (String.eqb col h)) (columns d).
Proof.
  destruct (PyStr.mem col (columns d)) eqn:E; [reflexivity|].
  symmetry. apply filter_id. intros x Hx.
  apply mem_false in E. apply negb_true_iff.
  apply String.eqb_neq. intros ->. now apply E.
Qed.

Lemma drop_loop_columns {A} (drops : list string) :
  forall d : Frame A,
    columns (fold_left (fun d col => if PyStr.mem col (columns d)
                                     then drop_column col d else d)
                       drops d)
    = filter (fun h => negb (PyStr.mem h drops)) (columns d).
Proof.
  induction drops as [|col drops IH]; intros d; simpl.
  - symmetry. now apply filter_id.
  - rewrite IH, drop_step_columns, filter_filter.
    apply filter_ext. intros h. rewrite String.eqb_sym.
    now rewrite negb_orb.
Qed.

Lemma retained_columns {A} (df : Frame A) :
  columns (retained cfg df)
  = filter (fun h => negb (PyStr.mem h (COLUMNS_TO_DROP cfg)))
           (columns (select (filter (fun col => in_dict col (COLUMN_MAPPING cfg))
                                    (columns df)) df)).
Proof. unfold retained. apply drop_loop_columns. Qed.

Lemma lookup_In k c d : lookup k d = Some c -> In (k, c) d.
Proof.
  induction d as [|[k' v] d IH]; simpl; [discriminate|].
  destruct (String.eqb_spec k k') as [->|_].
  - intros H. injection H as ->. now left.
  - intros H. right. now apply IH.
Qed.

Lemma values_unique (d : list (string * string)) k l c :
  NoDup (map snd d) -> In (k, c) d -> In (l, c) d -> k = l.
Proof.
  induction d as [|[k' v] d IH]; simpl; [intros _ []|].
  intros Hnd Hk Hl. inversion Hnd as [|? ? Hnin Hnd']; subst.
  destruct Hk as [Hk|Hk], Hl as [Hl|Hl].
  - congruence.
  - injection Hk as -> ->. exfalso. apply Hnin.
    change c with (snd (l, c)). now apply in_map.
  - injection Hl as -> ->. exfalso. apply Hnin.
    change c with (snd (k, c)). now apply in_map.
  - now apply IH.
Qed.

(** C7: the columns of the output are the canonical names of the
    labels retained, and a label is retained exactly when it is in the
    header, in ColumnMapping and not in the drop-set.  So a label both
    mapped and in the drop-set is not retained, and, canonical names
    being distinct, its canonical name is no column of the output.
    With a header free of repeated labels the retained labels are the
    header filtered, in the header's order. *)
Theorem drop_set_has_priority {A} (df : Frame A) :
  columns (filter_and_rename_columns cfg df)
  = map (canonical cfg) (columns (retained cfg df))
  /\ (forall l, In l (columns (retained cfg df))
                <-> In l (columns df)
                    /\ in_dict l (COLUMN_MAPPING cfg) = true
                    /\ ~ In l (COLUMNS_TO_DROP cfg))
  /\ (forall l, in_dict l (COLUMN_MAPPING cfg) = true ->
                In l (COLUMNS_TO_DROP cfg) ->
                ~ In l (columns (retained cfg df))
                /\ (NoDup (map snd (COLUMN_MAPPING cfg)) ->
                    ~ In (canonical cfg l)
                         (columns (filter_and_rename_columns cfg df))))
  /\ (NoDup (columns df) ->
      columns (retained cfg df)
      = filter (fun l => in_dict l (COLUMN_MAPPING cfg)
                         && negb (PyStr.mem l (COLUMNS_TO_DROP cfg)))
               (columns df)).
Proof.
  assert (Hkept : forall l, In l (columns (retained cfg df))
                <-> In l (columns df)
                    /\ in_dict l (COLUMN_MAPPING cfg) = true
                    /\ ~ In l (COLUMNS_TO_DROP cfg)).
  { intros l. rewrite retained_columns, filter_In, in_select_columns,
      filter_In, negb_true_iff, mem_false. tauto. }
  split; [reflexivity|]. split; [exact Hkept|]. split.
  - intros l Hmap Hdrop.
    assert (Hnot : ~ In l (columns (retained cfg df))).
    { rewrite Hkept. tauto. }
    split; [exact Hnot|].
    intros Hnd Hin. simpl in Hin. apply in_map_iff in Hin.
    destruct Hin as [k [Hk Hkin]].
    apply Hnot. replace l with k; [assumption|].
    apply Hkept in Hkin. destruct Hkin as [_ [Hkmap _]].
    unfold canonical, in_dict in *.
    destruct (lookup k (COLUMN_MAPPING cfg)) as [ck|] eqn:Ek; [|discriminate].
    destruct (lookup l (COLUMN_MAPPING cfg)) as [cl|] eqn:El; [|discriminate].
    subst cl. apply lookup_In in Ek, El.
    exact (values_unique _ _ _ _ Hnd Ek El).
  - intros Hnd. rewrite retained_columns.
    rewrite select_columns_nodup; [|assumption|].
    + rewrite filter_filter. reflexivity.
    + intros l Hl. apply filter_In in Hl. tauto.
Qed.

End Columns.

(** With "Status" mapped and dropped, a header with that label loses
    it. *)
Example status_mapped_and_dropped :
  columns (filter_and_rename_columns Demo.config_status
             (mkFrame ["Material"; "Status"; "Quantity"] [["M1"; "ok"; "7"]]))
  = ["material_id"; "quantity"]
  /\ data (filter_and_rename_columns Demo.config_status
             (mkFrame ["Material"; "Status"; "Quantity"] [["M1"; "ok"; "7"]]))
     = [["M1"; "7"]].
Proof. split; vm_compute; reflexivity. Qed.

(** ** Row widths through the pipeline *)

Lemma mask_length {A} keep (hdr : list string) :
  forall r : list A, length r = length hdr ->
                     length (mask keep hdr r) = length (filter keep hdr).
Proof.
  induction hdr as [|h hdr IH]; intros [|v r] Hlen; simpl in *;
    try discriminate; try reflexivity.
  destruct (keep h); simpl; rewrite IH by lia; reflexivity.
Qed.

Lemma pick_length {A B} (ps : list nat) (xs : list A) (ys : list B) :
  length xs = length ys -> length (pick ps xs) = length (pick ps ys).
Proof.
  intros Hlen. unfold pick.
  induction ps as [|i ps IH]; simpl; [reflexivity|].
  rewrite !length_app, IH. f_equal.
  destruct (nth_error xs i) eqn:Ex, (nth_error ys i) eqn:Ey; try reflexivity.
  - apply nth_error_None in Ey.
    assert (i < length xs) by (apply nth_error_Some; congruence). lia.
  - apply nth_error_None in Ex.
    assert (i < length ys) by (apply nth_error_Some; congruence). lia.
Qed.

Lemma wf_keep_columns {A} keep (df : Frame A) :
  wf df -> wf (keep_columns keep df).
Proof.
  unfold wf. simpl. intros H. apply Forall_map.
  eapply Forall_impl; [|exact H]. intros r Hr. now apply mask_length.
Qed.

Lemma wf_select {A} ls (df : Frame A) : wf df -> wf (select ls df).
Proof.
  unfold wf. simpl. intros H. apply Forall_map.
  eapply Forall_impl; [|exact H]. intros r Hr. now apply pick_length.
Qed.

Lemma wf_map_cells {A B} (f : string -> A -> B) (df : Frame A) :
  wf df -> wf (map_cells f df).
Proof.
  unfold wf. simpl. intros H. apply Forall_map.
  eapply Forall_impl; [|exact H]. intros r Hr. simpl in *.
  rewrite length_map, length_combine, Hr. apply Nat.min_id.
Qed.

Lemma wf_drop_loop {A} (drops : list string) :
  forall d : Frame A,
    wf d ->
    wf (fold_left (fun d col => if PyStr.mem col (columns d)
                                then drop_column col d else d) drops d).
Proof.
  induction drops as [|col drops IH]; intros d Hd; simpl; [assumption|].
  apply IH. destruct (PyStr.mem col (columns d)); [|assumption].
  now apply wf_keep_columns.
Qed.

Lemma drop_loop_rows {A} (drops : list string) :
  forall d : Frame A,
    length (data (fold_left (fun d col => if PyStr.mem col (columns d)
                                          then drop_column col d else d)
                            drops d))
    = length (data d).
Proof.
  induction drops as [|col drops IH]; intros d; simpl; [reflexivity|].
  rewrite IH. destruct (PyStr.mem col (columns d)); [|reflexivity].
  simpl. apply length_map.
Qed.

Lemma combine_has_label {A} c (hdr : list string) :
  forall r : list A, length r = length hdr -> In c hdr ->
                     exists v, In (c, v) (combine hdr r).
Proof.
  induction hdr as [|h hdr IH]; intros [|v r] Hlen Hin; simpl in *;
    try discriminate; try contradiction.
  destruct Hin as [->|Hin].
  - exists v. now left.
  - destruct (IH r) as [v' Hv']; [lia|assumption|]. exists v'. now right.
Qed.

Lemma combine_map_cells {A B} (g : string -> A -> B) (hdr : list string) :
  forall (r : list A) c v,
    In (c, v) (combine hdr (map (fun hv => g (fst hv) (snd hv)) (combine hdr r))) ->
    exists v0, In (c, v0) (combine hdr r) /\ v = g c v0.
Proof.
  induction hdr as [|h hdr IH]; intros [|v0 r] c v Hin; simpl in *;
    try contradiction.
  destruct Hin as [Heq|Hin].
  - injection Heq as <- <-. exists v0. split; [now left|reflexivity].
  - destruct (IH r c v Hin) as [v1 [H1 H2]]. exists v1. split; [now right|assumption].
Qed.

(** ** The validator *)

Section Validator.

Variable cfg : Config.
Variable env : Env.

Lemma wf_front (raw : Frame string) :
  wf raw -> wf (filter_and_rename_columns cfg (clean_column_names raw)).
Proof.
  intros H. unfold filter_and_rename_columns, wf. simpl.
  rewrite length_map. apply wf_drop_loop, wf_select.
  unfold clean_column_names. unfold wf. simpl. rewrite length_map.
  exact (wf_keep_columns _ raw H).
Qed.

Lemma front_rows (raw : Frame string) :
  length (data (filter_and_rename_columns cfg (clean_column_names raw)))
  = length (data raw).
Proof.
  unfold filter_and_rename_columns, retained. simpl.
  rewrite drop_loop_rows. simpl. now rewrite !length_map.
Qed.

(** The stages of a run of the pipeline that returned. *)
Lemma pipeline_stages raw df :
  pipeline cfg env raw = Ok df ->
  exists df4 : Frame string,
    (wf raw -> wf df4)
    /\ length (data df4) = length (data raw)
    /\ df = map_cells (fun col v => if PyStr.mem col (NUMERIC_COLUMNS cfg)
                                    then numeric_cell env v else Str v) df4.
Proof.
  unfold pipeline.
  pose proof (wf_front raw) as Hwf. pose proof (front_rows raw) as Hrows.
  set (df2 := filter_and_rename_columns cfg (clean_column_names raw)) in *.
  unfold clean_string_data.
  destruct (ambiguous (columns df2) (columns df2)); [discriminate|].
  cbn [bind]. unfold process_date_columns.
  match goal with |- context [ambiguous ?a ?b] => destruct (ambiguous a b) end;
    [discriminate|].
  cbn [bind]. unfold process_numeric_columns.
  match goal with |- context [ambiguous ?a ?b] => destruct (ambiguous a b) end;
    [discriminate|].
  intros H. injection H as <-.
  eexists. split; [|split; [|reflexivity]].
  - intros Hraw. now apply wf_map_cells, wf_map_cells, Hwf.
  - simpl. now rewrite !length_map.
Qed.

(** C1, as the code has it: on the dataset the pipeline produces,
    [empty_rows] is the number of rows all of whose cells are absent
    (null), and [total_rows] the number of rows read.  A cell is absent
    only in a declared numeric column; elsewhere it is a string, never
    absent, even when empty: a dataset with one column outside the
    numeric ones has [empty_rows] zero. *)
Theorem empty_rows_counts_absent_rows raw df :
  wf raw ->
  pipeline cfg env raw = Ok df ->
  empty_rows (validate_data df) = length (filter (forallb isnull) (data df))
  /\ total_rows (validate_data df) = length (data raw)
  /\ (forall r c v, In r (data df) -> In (c, v) (combine (columns df) r) ->
                    isnull v = true -> In c (NUMERIC_COLUMNS cfg))
  /\ (forall c, In c (columns df) -> ~ In c (NUMERIC_COLUMNS cfg) ->
                empty_rows (validate_data df) = 0).
Proof.
  intros Hraw Hpipe.
  destruct (pipeline_stages raw df Hpipe) as (df4 & Hwf & Hrows & ->).
  specialize (Hwf Hraw).
  split; [reflexivity|]. split.
  { simpl. now rewrite length_map. }
  split.
  { intros r' c v Hr' Hin Hnull. simpl in Hr', Hin.
    apply in_map_iff in Hr'. destruct Hr' as [r [<- Hr]].
    apply (combine_map_cells
             (fun col s => if PyStr.mem col (NUMERIC_COLUMNS cfg)
                           then numeric_cell env s else Str s)) in Hin.
    destruct Hin as [v0 [_ ->]].
    destruct (PyStr.mem c (NUMERIC_COLUMNS cfg)) eqn:E; [|discriminate].
    now apply mem_In. }
  intros c Hc Hnum. simpl in *.
  rewrite filter_none; [reflexivity|].
  intros r' Hr'. apply in_map_iff in Hr'. destruct Hr' as [r [<- Hr]].
  unfold wf in Hwf. rewrite Forall_forall in Hwf.
  destruct (combine_has_label c (columns df4) r (Hwf r Hr) Hc) as [v Hv].
  destruct (forallb isnull _) eqn:E; [|reflexivity].
  rewrite forallb_forall in E.
  assert (Hcell : isnull (Str v) = true).
  { apply E. apply in_map_iff. exists (c, v). split; [|assumption].
    simpl. apply mem_false in Hnum. now rewrite Hnum. }
  discriminate.
Qed.

End Validator.

(** C1, as stated, fails: a dataset with one row, its two mapped fields
    empty strings, has [empty_rows] zero. *)
Lemma empty_string_row_not_counted :
  ~ (forall env raw df,
        wf raw -> pipeline config env raw = Ok df ->
        empty_rows (validate_data df)
        = length (filter (forallb absent_or_empty) (data df))).
Proof.
  intros H.
  specialize (H Demo.env (mkFrame ["Material"; "Carrier"] [[""; ""]])
                (mkFrame ["material_id"; "carrier_name"] [[Str ""; Str ""]])).
  assert (Hwf : wf (mkFrame ["Material"; "Carrier"] [[""; ""]])).
  { constructor; [reflexivity|constructor]. }
  specialize (H Hwf eq_refl). vm_compute in H. discriminate.
Qed.

Lemma empty_rows_counts_absent_rows_witness :
  wf (mkFrame ["Material"; "Carrier"] [[""; ""]])
  /\ pipeline config Demo.env (mkFrame ["Material"; "Carrier"] [[""; ""]])
     = Ok (mkFrame ["material_id"; "carrier_name"] [[Str ""; Str ""]])
  /\ empty_rows (validate_data
                   (mkFrame ["material_id"; "carrier_name"] [[Str ""; Str ""]]))
     = 0.
Proof.
  assert (Hwf : wf (mkFrame ["Material"; "Carrier"] [[""; ""]])).
  { constructor; [reflexivity|constructor]. }
  split; [exact Hwf|]. split; [vm_compute; reflexivity|].
  refine (proj2 (proj2 (proj2
            (empty_rows_counts_absent_rows config Demo.env _ _ Hwf eq_refl)))
            "material_id" _ _).
  - simpl. now left.
  - vm_compute. intuition discriminate.
Defined.

(** ** The orchestrator *)

Section Orchestrator.

Variable cfg : Config.
Variable env : Env.

Lemma clean_csv_step w f output_dir :
  let w' := fst (clean_csv cfg env w f (output_file output_dir f)) in
  errors (stats w') = (errors (stats w) ++ recorded cfg env output_dir f)%list
  /\ files_processed (stats w')
     = files_processed (stats w) + (if cleaned cfg env output_dir f then 1 else 0)
  /\ disk w' = (written cfg env f (output_file output_dir f) ++ disk w)%list.
Proof.
  unfold clean_csv, recorded, cleaned, written.
  destruct (try_clean cfg env f (output_file output_dir f)) as [[df|]|msg];
    simpl; rewrite ?app_nil_r, ?Nat.add_0_r; repeat split; reflexivity.
Qed.

Lemma run_files output_dir files :
  forall w,
    let w' := fold_left
                (fun w0 f => fst (clean_csv cfg env w0 f (output_file output_dir f)))
                files w in
    errors (stats w')
    = (errors (stats w) ++ flat_map (recorded cfg env output_dir) files)%list
    /\ files_processed (stats w')
       = files_processed (stats w)
         + length (filter (cleaned cfg env output_dir) files)
    /\ (forall e, In e (disk w) -> In e (disk w'))
    /\ (forall g df, In g files ->
          try_clean cfg env g (output_file output_dir g) = Ok (Some df) ->
          In (output_file output_dir g, to_csv env df) (disk w')).
Proof.
  induction files as [|f files IH]; intros w; simpl.
  - rewrite app_nil_r, Nat.add_0_r. repeat split; auto. intros g df [].
  - destruct (clean_csv_step w f output_dir) as (Se & Sn & Sd).
    specialize (IH (fst (clean_csv cfg env w f (output_file output_dir f)))).
    simpl in IH. destruct IH as (He & Hn & Hd & Hout).
    rewrite He, Hn, Se, Sn. split; [now rewrite app_assoc|]. split.
    { destruct (cleaned cfg env output_dir f); simpl; lia. }
    split.
    + intros e H. apply Hd. rewrite Sd. apply in_or_app. now right.
    + intros g df [<-|Hg] Hdf; [|now apply Hout].
      apply Hd. rewrite Sd. unfold written. rewrite Hdf. now left.
Qed.

Lemma clean_directory_fold w files output_dir :
  clean_directory cfg env w (Some files) output_dir
  = fold_left (fun w0 f => fst (clean_csv cfg env w0 f (output_file output_dir f)))
              files w.
Proof. destruct files; reflexivity. Qed.

Lemma unreadable_recorded output_dir bad :
  (forall e, In e (encodings env bad) ->
             forall d, read_csv env (f_bytes bad) e <> Parsed d) ->
  recorded cfg env output_dir bad
  = [error_msg bad ("Failed to read " ++ f_path bad ++ " with any encoding")]
  /\ cleaned cfg env output_dir bad = false.
Proof.
  intros H. apply try_encodings_fail in H.
  unfold recorded, cleaned, try_clean, read_csv_with_fallback.
  rewrite H. split; reflexivity.
Qed.

Lemma valid_recorded output_dir files :
  (forall g, In g files ->
             exists df, try_clean cfg env g (output_file output_dir g) = Ok (Some df)) ->
  flat_map (recorded cfg env output_dir) files = []
  /\ length (filter (cleaned cfg env output_dir) files) = length files.
Proof.
  induction files as [|g files IH]; intros H; simpl; [split; reflexivity|].
  destruct IH as [IH1 IH2]; [intros g' Hg'; apply H; now right|].
  destruct (H g (or_introl eq_refl)) as [df Hdf].
  unfold recorded, cleaned in *. rewrite Hdf. simpl.
  rewrite IH1, IH2. split; reflexivity.
Qed.

(** C8: in a directory run every file is processed; the accumulated
    error list grows by one entry, "Failed to clean <path>: <cause>",
    for each file whose processing raised, in the order of the files,
    and by nothing else.  With one unreadable file among files that
    clean (such as one of three), the error list gains exactly the
    entry of the unreadable file, every other file's cleaned output is
    written, and all of them are counted as processed. *)
Theorem one_bad_file_does_not_stop_the_run w output_dir pre bad post :
  (forall e, In e (encodings env bad) ->
             forall d, read_csv env (f_bytes bad) e <> Parsed d) ->
  (forall g, In g (pre ++ post)%list ->
             exists df, try_clean cfg env g (output_file output_dir g) = Ok (Some df)) ->
  let w' := clean_directory cfg env w (Some (pre ++ bad :: post)%list) output_dir in
  (forall files,
      errors (stats (clean_directory cfg env w (Some files) output_dir))
      = (errors (stats w) ++ flat_map (recorded cfg env output_dir) files)%list)
  /\ (forall f, recorded cfg env output_dir f = []
                \/ exists cause,
                     try_clean cfg env f (output_file output_dir f) = Raise cause
                     /\ recorded cfg env output_dir f
                        = ["Failed to clean " ++ f_path f ++ ": " ++ cause])
  /\ errors (stats w')
     = (errors (stats w)
        ++ [("Failed to clean " ++ f_path bad ++ ": "
             ++ "Failed to read " ++ f_path bad ++ " with any encoding")%string])%list
  /\ length (errors (stats w')) = length (errors (stats w)) + 1
  /\ files_processed (stats w')
     = files_processed (stats w) + length pre + length post
  /\ (forall g df, In g (pre ++ post)%list ->
        try_clean cfg env g (output_file output_dir g) = Ok (Some df) ->
        In (output_file output_dir g, to_csv env df) (disk w')).
Proof.
  intros Hbad Hgood w'. subst w'. split.
  { intros files. rewrite clean_directory_fold.
    exact (proj1 (run_files output_dir files w)). }
  split.
  { intros f. unfold recorded.
    destruct (try_clean cfg env f (output_file output_dir f)) as [r|cause];
      [now left|right]. exists cause. split; reflexivity. }
  rewrite clean_directory_fold.
  destruct (run_files output_dir (pre ++ bad :: post)%list w)
    as (He & Hn & _ & Hout).
  destruct (unreadable_recorded output_dir bad Hbad) as [Hrec Hcl].
  destruct (valid_recorded output_dir pre) as [Hp1 Hp2].
  { intros g Hg. apply Hgood, in_or_app. now left. }
  destruct (valid_recorded output_dir post) as [Hq1 Hq2].
  { intros g Hg. apply Hgood, in_or_app. now right. }
  assert (Herr : errors (stats
                   (fold_left
                      (fun w0 f => fst (clean_csv cfg env w0 f (output_file output_dir f)))
                      (pre ++ bad :: post)%list w))
                 = (errors (stats w)
                    ++ [error_msg bad ("Failed to read " ++ f_path bad
                                       ++ " with any encoding")])%list).
  { rewrite He, flat_map_app. simpl. rewrite Hp1, Hrec, Hq1. reflexivity. }
  split; [exact Herr|]. split; [|split].
  - rewrite Herr, length_app. reflexivity.
  - rewrite Hn, filter_app, length_app. simpl. rewrite Hcl, Hp2, Hq2. lia.
  - intros g df Hg Hdf. apply Hout; [|assumption].
    apply in_app_or in Hg. apply in_or_app. destruct Hg; [now left|].
    right. now right.
Qed.

End Orchestrator.

Lemma one_bad_file_witness :
  (forall e, In e (encodings Demo.env Demo.corrupt) ->
             forall d, read_csv Demo.env (f_bytes Demo.corrupt) e <> Parsed d)
  /\ errors (stats (clean_directory config Demo.env Demo.fresh
                      (Some [Demo.quantities; Demo.corrupt; Demo.dates])
                      "cleaned_csv"))
     = ["Failed to clean csv/corrupt.csv: Failed to read csv/corrupt.csv with any encoding"]
  /\ files_processed
       (stats (clean_directory config Demo.env Demo.fresh
                 (Some [Demo.quantities; Demo.corrupt; Demo.dates])
                 "cleaned_csv"))
     = 2.
Proof.
  assert (Hbad : forall e, In e (encodings Demo.env Demo.corrupt) ->
             forall d, read_csv Demo.env (f_bytes Demo.corrupt) e <> Parsed d).
  { intros e _ d. vm_compute. discriminate. }
  assert (Hgood : forall g, In g ([Demo.quantities] ++ [Demo.dates])%list ->
             exists df, try_clean config Demo.env g (output_file "cleaned_csv" g)
                        = Ok (Some df)).
  { intros g [<-|[<-|[]]]; eexists; vm_compute; reflexivity. }
  destruct (one_bad_file_does_not_stop_the_run config Demo.env Demo.fresh
              "cleaned_csv" [Demo.quantities] Demo.corrupt [Demo.dates]
              Hbad Hgood) as (_ & _ & He & _ & Hn & _).
  split; [exact Hbad|]. split; [exact He|exact Hn].
Defined.

(** That run, computed: both valid files are written, "1,234" as 1234
    and "03/04/2024" as 2024-03-04, and the unmapped "Status" column is
    gone. *)
Example three_file_run :
  clean_directory config Demo.env Demo.fresh
    (Some [Demo.quantities; Demo.corrupt; Demo.dates]) "cleaned_csv"
  = mkWorld
      (mkStats 2 2
         ["Failed to clean csv/corrupt.csv: Failed to read csv/corrupt.csv with any encoding"])
      [("cleaned_csv/cleaned_dates.csv",
        "material_id,delivery_date" ++ Demo.newline ++ "M2,2024-03-04");
       ("cleaned_csv/cleaned_quantities.csv",
        "material_id,quantity" ++ Demo.newline ++ "M1,1234")].
Proof. vm_compute. reflexivity. Qed.

(** * Further properties of the cleaner *)

(** ** Trimming *)

Lemma lstrip_head s : head_blank (PyStr.lstrip s) = false.
Proof.
  induction s as [|c s IH]; simpl; [reflexivity|].
  destruct (PyStr.is_space c) eqn:E; [exact IH|]. simpl. exact E.
Qed.

Lemma lstrip_fixed s : head_blank s = false -> PyStr.lstrip s = s.
Proof.
  destruct s as [|c s]; simpl; [reflexivity|]. now intros ->.
Qed.

Lemma rstrip_head s : head_blank s = false -> head_blank (PyStr.rstrip s) = false.
Proof.
  destruct s as [|c s]; simpl; [reflexivity|]. intros H.
  destruct (PyStr.rstrip s); [rewrite H|]; simpl; exact H.
Qed.

Lemma rstrip_last s : last_blank (PyStr.rstrip s) = false.
Proof.
  induction s as [|c s IH]; simpl; [reflexivity|].
  destruct (PyStr.rstrip s) as [|c' r] eqn:E.
  - destruct (PyStr.is_space c) eqn:Ec; simpl; [reflexivity|exact Ec].
  - exact IH.
Qed.

Lemma rstrip_fixed s : last_blank s = false -> PyStr.rstrip s = s.
Proof.
  induction s as [|c s IH]; simpl; [reflexivity|].
  destruct s as [|c' s'].
  - simpl. now intros ->.
  - intros H. rewrite (IH H). reflexivity.
Qed.

Lemma strip_ends s :
  head_blank (PyStr.strip s) = false /\ last_blank (PyStr.strip s) = false.
Proof.
  unfold PyStr.strip. split; [apply rstrip_head, lstrip_head|apply rstrip_last].
Qed.

Lemma strip_fixed s :
  head_blank s = false -> last_blank s = false -> PyStr.strip s = s.
Proof.
  intros Hh Hl. unfold PyStr.strip. rewrite (lstrip_fixed s Hh).
  now apply rstrip_fixed.
Qed.

Lemma strip_idempotent s : PyStr.strip (PyStr.strip s) = PyStr.strip s.
Proof. destruct (strip_ends s). now apply strip_fixed. Qed.

Lemma clean_cell_ends s :
  head_blank (clean_cell s) = false /\ last_blank (clean_cell s) = false.
Proof.
  unfold clean_cell. destruct (String.eqb (PyStr.strip s) "nan").
  - split; reflexivity.
  - apply strip_ends.
Qed.

Lemma clean_cell_idempotent s : clean_cell (clean_cell s) = clean_cell s.
Proof.
  unfold clean_cell.
  destruct (String.eqb (PyStr.strip s) "nan") eqn:E; [reflexivity|].
  now rewrite strip_idempotent, E.
Qed.

(** X1: a cell the field cleaner returns neither starts nor ends with a
    blank, whatever the raw cell, and cleaning it again gives it back. *)
Theorem clean_cell_trimmed s :
  head_blank (clean_cell s) = false
  /\ last_blank (clean_cell s) = false
  /\ clean_cell (clean_cell s) = clean_cell s.
Proof.
  destruct (clean_cell_ends s) as [Hh Hl].
  split; [exact Hh|]. split; [exact Hl|]. apply clean_cell_idempotent.
Qed.

Lemma map_cells_compose {A B C} (f : string -> A -> B) (g : string -> B -> C)
      (df : Frame A) :
  map_cells g (map_cells f df) = map_cells (fun c v => g c (f c v)) df.
Proof.
  unfold map_cells. simpl. f_equal. rewrite map_map.
  apply map_ext. intros r. generalize (columns df). intros hdr. revert r.
  induction hdr as [|h hdr IH]; intros [|v r]; simpl; try reflexivity.
  f_equal. apply IH.
Qed.

Lemma map_cells_ext {A B} (f g : string -> A -> B) (df : Frame A) :
  (forall c v, f c v = g c v) -> map_cells f df = map_cells g df.
Proof.
  intros H. unfold map_cells. f_equal. apply map_ext. intros r.
  apply map_ext. intros [c v]. apply H.
Qed.

(** X2: cleaning the strings of a frame that [clean_string_data] has
    already returned gives the same frame again. *)
Theorem clean_string_data_idempotent df df' :
  clean_string_data df = Ok df' -> clean_string_data df' = Ok df'.
Proof.
  unfold clean_string_data.
  destruct (ambiguous (columns df) (columns df)) eqn:E; [discriminate|].
  intros H. injection H as <-. simpl. rewrite E. f_equal.
  rewrite map_cells_compose. apply map_cells_ext.
  intros c v. apply clean_cell_idempotent.
Qed.

Lemma clean_string_data_idempotent_witness :
  clean_string_data (mkFrame ["material_id"; "carrier_name"] [[" M1 "; "nan"]])
  = Ok (mkFrame ["material_id"; "carrier_name"] [["M1"; ""]])
  /\ clean_string_data (mkFrame ["material_id"; "carrier_name"] [["M1"; ""]])
     = Ok (mkFrame ["material_id"; "carrier_name"] [["M1"; ""]]).
Proof.
  split; [reflexivity|].
  exact (clean_string_data_idempotent
           (mkFrame ["material_id"; "carrier_name"] [[" M1 "; "nan"]])
           (mkFrame ["material_id"; "carrier_name"] [["M1"; ""]]) eq_refl).
Defined.

(** ** Thousands separators *)

Lemma remove_commas_app a b :
  PyStr.remove_commas (a ++ b) = PyStr.remove_commas a ++ PyStr.remove_commas b.
Proof.
  induction a as [|c a IH]; simpl; [reflexivity|].
  destruct (Ascii.eqb c ","); simpl; now rewrite IH.
Qed.

(** X3: a comma anywhere in a numeric cell is ignored: the cell reads as
    the same text without that comma, wherever the comma stands. *)
Theorem numeric_cell_ignores_commas env a b :
  numeric_cell env (a ++ "," ++ b) = numeric_cell env (a ++ b).
Proof.
  unfold numeric_cell. now rewrite !remove_commas_app.
Qed.

(** ** The header *)

Lemma in_retained cfg {A} (df : Frame A) l :
  In l (columns (retained cfg df))
  <-> In l (columns df)
      /\ in_dict l (COLUMN_MAPPING cfg) = true
      /\ ~ In l (COLUMNS_TO_DROP cfg).
Proof.
  rewrite retained_columns, filter_In, in_select_columns,
    filter_In, negb_true_iff, mem_false. tauto.
Qed.

(** X4: the labels [clean_column_names] warns about are exactly the
    labels of the header that are neither retained by
    [filter_and_rename_columns] nor in the drop-set: a column that
    disappears without a warning is always one of the drop-set. *)
Theorem unknown_iff_lost_outside_drop_set cfg {A} (df : Frame A) l :
  In l (unknown_cols cfg (columns df))
  <-> In l (columns df)
      /\ ~ In l (columns (retained cfg df))
      /\ ~ In l (COLUMNS_TO_DROP cfg).
Proof.
  unfold unknown_cols.
  rewrite filter_In, andb_true_iff, !negb_true_iff, mem_false, in_retained.
  destruct (in_dict l (COLUMN_MAPPING cfg)); intuition congruence.
Qed.

(** X5: a header label written with blanks around it is recognised: if
    its trimmed text is mapped and not in the drop-set, the canonical
    name of the trimmed text is a column of the output. *)
Theorem padded_label_is_recognised cfg (df : Frame string) h :
  In h (columns df) ->
  h <> "" ->
  in_dict (PyStr.strip h) (COLUMN_MAPPING cfg) = true ->
  ~ In (PyStr.strip h) (COLUMNS_TO_DROP cfg) ->
  In (canonical cfg (PyStr.strip h))
     (columns (filter_and_rename_columns cfg (clean_column_names df))).
Proof.
  intros Hin Hne Hmap Hdrop.
  unfold filter_and_rename_columns. simpl. apply in_map.
  apply in_retained. split; [|split; assumption].
  simpl. apply in_map. apply filter_In. split; [assumption|].
  apply negb_true_iff. now apply String.eqb_neq.
Qed.

Lemma padded_label_witness :
  In (canonical config (PyStr.strip "  Material "))
     (columns (filter_and_rename_columns config
                 (clean_column_names
                    (mkFrame ["  Material "; "Extra"] [["M1"; "x"]]))))
  /\ canonical config (PyStr.strip "  Material ") = "material_id".
Proof.
  split; [|reflexivity].
  apply (padded_label_is_recognised config
           (mkFrame ["  Material "; "Extra"] [["M1"; "x"]]) "  Material ").
  - now left.
  - discriminate.
  - reflexivity.
  - simpl. intros [H|[]]. discriminate.
Defined.

Lemma NoDup_filter {A} (p : A -> bool) (xs : list A) :
  NoDup xs -> NoDup (filter p xs).
Proof.
  induction 1 as [|x xs Hnin _ IH]; simpl; [constructor|].
  destruct (p x); [|assumption]. constructor; [|assumption].
  intros H. apply filter_In in H. tauto.
Qed.

Lemma NoDup_map_on {A B} (f : A -> B) (xs : list A) :
  (forall x y, In x xs -> In y xs -> f x = f y -> x = y) ->
  NoDup xs -> NoDup (map f xs).
Proof.
  intros Hinj Hnd. induction Hnd as [|x xs Hnin _ IH]; simpl; [constructor|].
  constructor.
  - intros H. apply in_map_iff in H. destruct H as [y [Hy Hin]].
    apply Hnin. replace x with y; [assumption|].
    apply Hinj; [now right|now left|assumption].
  - apply IH. intros a b Ha Hb. apply Hinj; now right.
Qed.

Lemma canonical_injective cfg k l :
  NoDup (map snd (COLUMN_MAPPING cfg)) ->
  in_dict k (COLUMN_MAPPING cfg) = true ->
  in_dict l (COLUMN_MAPPING cfg) = true ->
  canonical cfg k = canonical cfg l -> k = l.
Proof.
  unfold canonical, in_dict. intros Hnd Hk Hl.
  destruct (lookup k (COLUMN_MAPPING cfg)) as [ck|] eqn:Ek; [|discriminate].
  destruct (lookup l (COLUMN_MAPPING cfg)) as [cl|] eqn:El; [|discriminate].
  intros ->. apply lookup_In in Ek, El.
  exact (values_unique _ _ _ _ Hnd Ek El).
Qed.

Lemma nodupb_NoDup xs : nodupb xs = true <-> NoDup xs.
Proof.
  induction xs as [|x xs IH]; simpl.
  - split; [constructor|reflexivity].
  - rewrite andb_true_iff, negb_true_iff, mem_false, IH. split.
    + intros [H1 H2]. now constructor.
    + intros H. inversion H. tauto.
Qed.

(** X6: when the canonical names of the mapping are distinct, renaming
    never merges columns: a header without repeated labels gives an
    output without repeated columns, each of them a canonical name of
    the mapping. *)
Theorem renaming_keeps_columns_distinct cfg {A} (df : Frame A) :
  NoDup (map snd (COLUMN_MAPPING cfg)) ->
  NoDup (columns df) ->
  NoDup (columns (filter_and_rename_columns cfg df))
  /\ (forall c, In c (columns (filter_and_rename_columns cfg df)) ->
                In c (map snd (COLUMN_MAPPING cfg))).
Proof.
  intros Hvals Hnd. unfold filter_and_rename_columns. simpl. split.
  - apply NoDup_map_on.
    + intros k l Hk Hl. apply in_retained in Hk, Hl.
      apply canonical_injective; tauto.
    + rewrite retained_columns. apply NoDup_filter.
      rewrite select_columns_nodup; [now apply NoDup_filter|assumption|].
      intros l Hl. apply filter_In in Hl. tauto.
  - intros c Hc. apply in_map_iff in Hc. destruct Hc as [l [<- Hl]].
    apply in_retained in Hl. destruct Hl as [_ [Hmap _]].
    unfold canonical, in_dict in *.
    destruct (lookup l (COLUMN_MAPPING cfg)) as [cl|] eqn:El; [|discriminate].
    apply lookup_In in El. change cl with (snd (l, cl)). now apply in_map.
Qed.

Lemma config_values_distinct : NoDup (map snd (COLUMN_MAPPING config)).
Proof. apply nodupb_NoDup. vm_compute. reflexivity. Qed.

Lemma renaming_keeps_columns_distinct_witness :
  NoDup (map snd (COLUMN_MAPPING config))
  /\ NoDup ["Material"; "Quantity"; "Status"]
  /\ NoDup (columns (filter_and_rename_columns config
                       (mkFrame ["Material"; "Quantity"; "Status"]
                                [["M1"; "7"; "ok"]]))).
Proof.
  assert (Hhdr : NoDup ["Material"; "Quantity"; "Status"]).
  { apply nodupb_NoDup. reflexivity. }
  split; [exact config_values_distinct|]. split; [exact Hhdr|].
  exact (proj1 (renaming_keeps_columns_distinct config
                  (mkFrame ["Material"; "Quantity"; "Status"] [["M1"; "7"; "ok"]])
                  config_values_distinct Hhdr)).
Defined.

(** ** The pipeline as a whole *)

Lemma nodup_of_counts hdr :
  (forall l, In l hdr -> count_label l hdr <= 1) -> NoDup hdr.
Proof.
  induction hdr as [|h hdr IH]; intros H; constructor.
  - intros Hin. pose proof (H h (or_introl eq_refl)) as Hh.
    pose proof (count_label_pos h hdr Hin). simpl in Hh.
    rewrite String.eqb_refl in Hh. lia.
  - apply IH. intros l Hl. pose proof (H l (or_intror Hl)) as Hc.
    simpl in Hc. lia.
Qed.

Lemma ambiguous_self hdr : ambiguous hdr hdr = false <-> NoDup hdr.
Proof.
  split; [|apply ambiguous_nodup].
  intros H. apply nodup_of_counts. intros l Hl.
  unfold ambiguous in H.
  destruct (2 <=? count_label l hdr) eqn:E; [|apply Nat.leb_gt in E; lia].
  assert (Hex : existsb (fun l => 2 <=? count_label l hdr) hdr = true).
  { apply existsb_exists. now exists l. }
  congruence.
Qed.

Section Pipeline.

Variable cfg : Config.
Variable env : Env.

Lemma pipeline_fused raw df :
  pipeline cfg env raw = Ok df ->
  df = map_cells (coerce cfg env)
                 (filter_and_rename_columns cfg (clean_column_names raw)).
Proof.
  unfold pipeline, clean_string_data.
  set (df2 := filter_and_rename_columns cfg (clean_column_names raw)).
  destruct (ambiguous (columns df2) (columns df2)); [discriminate|].
  cbn [bind]. unfold process_date_columns.
  match goal with |- context [ambiguous ?a ?b] => destruct (ambiguous a b) end;
    [discriminate|].
  cbn [bind]. unfold process_numeric_columns.
  match goal with |- context [ambiguous ?a ?b] => destruct (ambiguous a b) end;
    [discriminate|].
  intros H. injection H as <-.
  rewrite !map_cells_compose. apply map_cells_ext. intros c v.
  unfold coerce. reflexivity.
Qed.

(** X7: up to the values of the numbers, the three cell stages act
    cell by cell: when the pipeline returns, whether a cell of its
    result is text, a number or absent, and the text of a text cell,
    are those of [coerce] on the column's name and the raw cell in the
    same place of the frame that [filter_and_rename_columns] produced.
    (The value of a number is left out: the numeric parser gives a
    column one common type.) *)
Theorem pipeline_is_cellwise raw df :
  pipeline cfg env raw = Ok df ->
  map_cells (fun _ => forget_value) df
  = map_cells (fun c v => forget_value (coerce cfg env c v))
              (filter_and_rename_columns cfg (clean_column_names raw)).
Proof.
  intros H. rewrite (pipeline_fused raw df H) at 1.
  now rewrite map_cells_compose.
Qed.

Lemma pipeline_success raw :
  (exists df, pipeline cfg env raw = Ok df)
  <-> NoDup (columns (filter_and_rename_columns cfg (clean_column_names raw))).
Proof.
  unfold pipeline, clean_string_data.
  set (df2 := filter_and_rename_columns cfg (clean_column_names raw)).
  split.
  - intros [df H]. apply ambiguous_self.
    destruct (ambiguous (columns df2) (columns df2)); [discriminate|reflexivity].
  - intros Hnd. rewrite (ambiguous_nodup _ _ Hnd). cbn [bind].
    unfold process_date_columns. simpl.
    rewrite (ambiguous_nodup _ _ Hnd). cbn [bind].
    unfold process_numeric_columns. simpl.
    rewrite (ambiguous_nodup _ _ Hnd). eexists. reflexivity.
Qed.

(** X8: the pipeline returns a frame exactly when the labels retained
    from the cleaned header are pairwise distinct; nothing in the cells
    can make it raise. *)
Theorem pipeline_returns_iff_labels_distinct raw :
  (exists df, pipeline cfg env raw = Ok df)
  <-> NoDup (columns (filter_and_rename_columns cfg (clean_column_names raw))).
Proof.
  split; intros H; now apply pipeline_success.
Qed.

(** X9: when the pipeline returns, its frame is rectangular, has as
    many rows as the frame read, and no two of its columns carry the
    same name. *)
Theorem pipeline_keeps_shape raw df :
  wf raw ->
  pipeline cfg env raw = Ok df ->
  wf df
  /\ length (data df) = length (data raw)
  /\ NoDup (columns df).
Proof.
  intros Hwf H.
  assert (Hnd : NoDup (columns (filter_and_rename_columns cfg
                                  (clean_column_names raw)))).
  { apply pipeline_success. now exists df. }
  rewrite (pipeline_fused raw df H). split; [|split].
  - apply wf_map_cells. now apply wf_front.
  - simpl. rewrite length_map. apply front_rows.
  - exact Hnd.
Qed.

End Pipeline.

Lemma pipeline_is_cellwise_witness :
  pipeline config Demo.env
    (mkFrame ["Material"; "Quantity"; "Delivery Date"]
             [[" M1 "; "1,234"; "03/04/2024"]; ["nan"; "x"; ""]])
  = Ok (mkFrame ["material_id"; "quantity"; "delivery_date"]
                [[Str "M1"; Num (Int64 1234); Str "2024-03-04"];
                 [Str ""; Null; Str ""]])
  /\ map_cells (fun c v => forget_value (coerce config Demo.env c v))
       (filter_and_rename_columns config
          (clean_column_names
             (mkFrame ["Material"; "Quantity"; "Delivery Date"]
                      [[" M1 "; "1,234"; "03/04/2024"]; ["nan"; "x"; ""]])))
     = mkFrame ["material_id"; "quantity"; "delivery_date"]
               [[Str "M1"; Num (Int64 0); Str "2024-03-04"];
                [Str ""; Null; Str ""]].
Proof.
  split; [vm_compute; reflexivity|].
  symmetry.
  exact (pipeline_is_cellwise config Demo.env
           (mkFrame ["Material"; "Quantity"; "Delivery Date"]
                    [[" M1 "; "1,234"; "03/04/2024"]; ["nan"; "x"; ""]])
           (mkFrame ["material_id"; "quantity"; "delivery_date"]
                    [[Str "M1"; Num (Int64 1234); Str "2024-03-04"];
                     [Str ""; Null; Str ""]])
           eq_refl).
Defined.

Lemma pipeline_keeps_shape_witness :
  wf (mkFrame ["Material"; "Quantity"; "Delivery Date"] [[" M1 "; "1,234"; "03/04/2024"]])
  /\ NoDup ["material_id"; "quantity"; "delivery_date"].
Proof.
  assert (Hwf : wf (mkFrame ["Material"; "Quantity"; "Delivery Date"]
                            [[" M1 "; "1,234"; "03/04/2024"]])).
  { constructor; [reflexivity|constructor]. }
  split; [exact Hwf|].
  exact (proj2 (proj2 (pipeline_keeps_shape config Demo.env _
           (mkFrame ["material_id"; "quantity"; "delivery_date"]
                    [[Str "M1"; Num (Int64 1234); Str "2024-03-04"]])
           Hwf eq_refl))).
Defined.

(** ** The validator on pipeline output *)

Lemma flagged_from_inv (df : Frame cell) c :
  forall suf i,
    In c (flagged_from i suf df) ->
    exists k, nth_error suf k = Some c
              /\ length (data df) < 2 * null_count (i + k) df.
Proof.
  induction suf as [|h suf IH]; intros i Hin; cbn [flagged_from] in Hin;
    [contradiction|].
  assert (Hrest : In c (flagged_from (S i) suf df) ->
                  exists k, nth_error (h :: suf) k = Some c
                            /\ length (data df) < 2 * null_count (i + k) df).
  { intros H. destruct (IH (S i) H) as [k [Hk Hlt]].
    exists (S k). split; [exact Hk|]. now rewrite Nat.add_succ_r. }
  destruct (length (data df) <? 2 * null_count i df) eqn:E; [|now apply Hrest].
  destruct Hin as [->|Hin]; [|now apply Hrest].
  exists 0. split; [reflexivity|]. rewrite Nat.add_0_r. now apply Nat.ltb_lt.
Qed.

Lemma null_count_pos (df : Frame cell) j :
  0 < null_count j df ->
  exists r v, In r (data df) /\ nth_error r j = Some v /\ isnull v = true.
Proof.
  unfold null_count. intros H.
  destruct (filter _ (data df)) as [|r rs] eqn:E; [simpl in H; lia|].
  assert (Hr : In r (filter (fun r => match nth_error r j with
                                       | Some c => isnull c
                                       | None => false
                                       end) (data df))).
  { rewrite E. now left. }
  apply filter_In in Hr. destruct Hr as [Hin Hnull].
  destruct (nth_error r j) as [v|] eqn:Ev; [|discriminate].
  exists r, v. repeat split; assumption.
Qed.

Lemma nth_error_combine {A} (hdr : list string) :
  forall (r : list A) j c v,
    nth_error hdr j = Some c -> nth_error r j = Some v ->
    In (c, v) (combine hdr r).
Proof.
  induction hdr as [|h hdr IH]; intros [|v0 r] [|j] c v Hc Hv; simpl in *;
    try discriminate.
  - injection Hc as ->. injection Hv as ->. now left.
  - right. now apply (IH r j).
Qed.

Lemma null_cell_is_numeric cfg env raw df r c v :
  pipeline cfg env raw = Ok df ->
  In r (data df) -> In (c, v) (combine (columns df) r) -> isnull v = true ->
  In c (NUMERIC_COLUMNS cfg).
Proof.
  intros H Hr Hin Hnull. rewrite (pipeline_fused cfg env raw df H) in *.
  simpl in Hr, Hin. apply in_map_iff in Hr. destruct Hr as [r0 [<- _]].
  apply (combine_map_cells (coerce cfg env)) in Hin.
  destruct Hin as [v0 [_ ->]]. unfold coerce in Hnull.
  destruct (PyStr.mem c (NUMERIC_COLUMNS cfg)) eqn:E; [|discriminate].
  now apply mem_In.
Qed.

(** X10: on the dataset the pipeline returns, only declared numeric
    columns can be reported in [columns_with_nulls]: a text or date
    column is never flagged, however many of its cells are empty; and
    [empty_rows] never exceeds [total_rows]. *)
Theorem only_numeric_columns_are_flagged cfg env raw df :
  pipeline cfg env raw = Ok df ->
  (forall c, In c (columns_with_nulls (validate_data df)) ->
             In c (columns df) /\ In c (NUMERIC_COLUMNS cfg))
  /\ empty_rows (validate_data df) <= total_rows (validate_data df).
Proof.
  intros H. split.
  - intros c Hc. simpl in Hc.
    destruct (flagged_from_inv df c _ _ Hc) as [k [Hk Hlt]]. simpl in Hlt.
    split; [now apply nth_error_In in Hk|].
    destruct (null_count_pos df k) as (r & v & Hr & Hv & Hnull); [lia|].
    apply (null_cell_is_numeric cfg env raw df r c v H Hr); [|assumption].
    now apply (nth_error_combine (columns df) r k).
  - simpl. apply filter_length_le.
Qed.

Lemma only_numeric_columns_are_flagged_witness :
  pipeline config Demo.env
    (mkFrame ["Material"; "Quantity"] [[""; ""]; [""; "x"]; ["M3"; "5"]])
  = Ok (mkFrame ["material_id"; "quantity"]
                [[Str ""; Null]; [Str ""; Null]; [Str "M3"; Num (Int64 5)]])
  /\ columns_with_nulls
       (validate_data
          (mkFrame ["material_id"; "quantity"]
                   [[Str ""; Null]; [Str ""; Null]; [Str "M3"; Num (Int64 5)]]))
     = ["quantity"]
  /\ In "quantity" (NUMERIC_COLUMNS config).
Proof.
  split; [vm_compute; reflexivity|]. split; [vm_compute; reflexivity|].
  refine (proj2 (proj1 (only_numeric_columns_are_flagged config Demo.env
                          (mkFrame ["Material"; "Quantity"]
                                   [[""; ""]; [""; "x"]; ["M3"; "5"]])
                          _ eq_refl) "quantity" _)).
  vm_compute. now left.
Defined.

(** ** One file *)

Section OneFile.

Variable cfg : Config.
Variable env : Env.


(** X12: a file that parses to no data rows is skipped: [clean_csv]
    returns False and leaves the statistics, the error list included,
    and the output directory as they were. *)
Theorem empty_input_is_skipped w f out raw :
  read_csv_with_fallback env f = Ok raw ->
  data raw = [] ->
  clean_csv cfg env w f out = (w, false).
Proof.
  intros Hr Hd. unfold clean_csv, try_clean. rewrite Hr. cbn [bind].
  assert (He : empty raw = true).
  { unfold empty. rewrite Hd. now destruct (columns raw). }
  now rewrite He.
Qed.

End OneFile.

Lemma empty_input_is_skipped_witness :
  clean_csv config
    (mkEnv Demo.chardet_detect (fun _ _ => Parsed (mkFrame ["Material"] []))
           (fun _ => None) Demo.to_numeric Demo.to_csv (fun _ => None))
    Demo.fresh (mkfile "csv/header_only.csv" "header_only.csv" "Material")
    "cleaned_csv/cleaned_header_only.csv"
  = (Demo.fresh, false).
Proof.
  apply (empty_input_is_skipped config _ Demo.fresh _ _ (mkFrame ["Material"] []));
    reflexivity.
Defined.

(** ** A directory run, in numbers *)

Section Accounting.

Variable cfg : Config.
Variable env : Env.

Lemma clean_csv_rows w f output_dir :
  rows_processed (stats (fst (clean_csv cfg env w f (output_file output_dir f))))
  = rows_processed (stats w) + rows_of cfg env output_dir f.
Proof.
  unfold clean_csv, rows_of.
  destruct (try_clean cfg env f (output_file output_dir f)) as [[df|]|msg];
    simpl; lia.
Qed.

Lemma run_rows output_dir files :
  forall w,
    let w' := fold_left
                (fun w0 f => fst (clean_csv cfg env w0 f (output_file output_dir f)))
                files w in
    rows_processed (stats w')
    = rows_processed (stats w) + list_sum (map (rows_of cfg env output_dir) files)
    /\ length (disk w')
       = length (disk w) + length (filter (cleaned cfg env output_dir) files).
Proof.
  induction files as [|f files IH]; intros w; simpl; [lia|].
  specialize (IH (fst (clean_csv cfg env w f (output_file output_dir f)))).
  simpl in IH. destruct IH as [Hr Hd]. rewrite Hr, Hd, clean_csv_rows.
  destruct (clean_csv_step cfg env w f output_dir) as (_ & _ & Sd).
  rewrite Sd, length_app. unfold written, cleaned.
  destruct (try_clean cfg env f (output_file output_dir f)) as [[df|]|msg];
    simpl; lia.
Qed.

Lemma outcomes_partition output_dir files :
  length (filter (cleaned cfg env output_dir) files)
  + length (flat_map (recorded cfg env output_dir) files)
  + length (filter (skipped cfg env output_dir) files)
  = length files.
Proof.
  induction files as [|f files IH]; simpl; [reflexivity|].
  rewrite length_app. unfold cleaned, recorded, skipped in *.
  destruct (try_clean cfg env f (output_file output_dir f)) as [[df|]|msg];
    simpl; lia.
Qed.

(** X13: in a directory run every file found is accounted for once:
    the files counted as processed, the error entries added and the
    files skipped as empty add up to the number of files.  The error
    list only grows at its end, as many files are written as are
    counted, and [rows_processed] grows by the rows of the frames
    written.  A missing directory or an empty listing changes nothing. *)
Theorem directory_run_accounts_for_every_file w files output_dir :
  let w' := clean_directory cfg env w (Some files) output_dir in
  files_processed (stats w') + length (errors (stats w'))
  + length (filter (skipped cfg env output_dir) files)
  = files_processed (stats w) + length (errors (stats w)) + length files
  /\ (exists added, errors (stats w') = (errors (stats w) ++ added)%list)
  /\ length (disk w') + files_processed (stats w)
     = length (disk w) + files_processed (stats w')
  /\ rows_processed (stats w')
     = rows_processed (stats w) + list_sum (map (rows_of cfg env output_dir) files)
  /\ clean_directory cfg env w None output_dir = w
  /\ clean_directory cfg env w (Some []) output_dir = w.
Proof.
  cbv zeta. rewrite clean_directory_fold.
  destruct (run_files cfg env output_dir files w) as (He & Hn & _ & _).
  destruct (run_rows output_dir files w) as (Hr & Hd).
  pose proof (outcomes_partition output_dir files) as Hp.
  split; [rewrite He, Hn, length_app; lia|].
  split; [eexists; exact He|].
  split; [rewrite Hd, Hn; lia|].
  split; [exact Hr|]. split; reflexivity.
Qed.

End Accounting.

(** ** Dates in canonical form *)

Ltac enum n k :=
  first [ lia | destruct n as [|n]; [ first [ lia | k ] | enum n k ] ].

(** The decimal rendering of a number, read through the library's own
    conversions. *)
Lemma string_of_uint_length u :
  String.length (NilEmpty.string_of_uint u) = Decimal.nb_digits u.
Proof. induction u; simpl; congruence. Qed.

Lemma zero_padding u :
  u <> Decimal.Nil ->
  Strptime.zeros (Decimal.nb_digits u
                  - String.length (NilEmpty.string_of_uint (Decimal.unorm u)))
  ++ NilEmpty.string_of_uint (Decimal.unorm u)
  = NilEmpty.string_of_uint u.
Proof.
  induction u as [|u IH|u _|u _|u _|u _|u _|u _|u _|u _|u _]; intros Hne;
    try contradiction;
    try (cbn [Decimal.unorm Decimal.nzhead];
         rewrite string_of_uint_length, Nat.sub_diag; reflexivity).
  rewrite DecimalFacts.unorm_D0.
  destruct u as [|u'|u'|u'|u'|u'|u'|u'|u'|u'|u'] eqn:E; [reflexivity|..].
  all: rewrite <- E in *.
  all: assert (Hu : u <> Decimal.Nil) by (rewrite E; discriminate).
  all: specialize (IH Hu).
  all: pose proof (DecimalFacts.nb_digits_unorm u Hu) as Hle.
  all: rewrite string_of_uint_length in *.
  all: cbn [Decimal.nb_digits NilEmpty.string_of_uint].
  all: rewrite Nat.sub_succ_l by exact Hle.
  all: cbn [Strptime.zeros String.append]; now rewrite IH.
Qed.

Lemma int_of_acc_uint u :
  forall acc,
    Strptime.int_of_acc acc (NilEmpty.string_of_uint u) = Nat.of_uint_acc u acc.
Proof.
  induction u; intros acc;
    cbn [NilEmpty.string_of_uint Strptime.int_of_acc Nat.of_uint_acc];
    [reflexivity|..].
  all: match goal with
       | |- context [Strptime.is_digit ?c] =>
           replace (Strptime.is_digit c) with true by reflexivity
       end.
  all: match goal with
       | |- context [nat_of_ascii ?c - nat_of_ascii ?z] =>
           let v := eval vm_compute in (nat_of_ascii c - nat_of_ascii z) in
           replace (nat_of_ascii c - nat_of_ascii z) with v by reflexivity
       end.
  all: rewrite IHu; f_equal; rewrite Nat.tail_mul_spec; lia.
Qed.

Lemma little_digits k :
  forall y, y < 10 ^ k ->
            exists d, Decimal.nb_digits d = k /\ DecimalNat.Unsigned.of_lu d = y.
Proof.
  induction k as [|k IH]; intros y Hy.
  - exists Decimal.Nil. simpl in *. split; [reflexivity|lia].
  - rewrite Nat.pow_succ_r' in Hy.
    pose proof (Nat.div_mod_eq y 10) as Hdm.
    pose proof (Nat.mod_upper_bound y 10 ltac:(discriminate)) as Hr.
    destruct (IH (y / 10)) as [d [Hn Hv]]; [lia|].
    remember (y mod 10) as r eqn:Er. clear Er.
    destruct r as [|[|[|[|[|[|[|[|[|[|r]]]]]]]]]];
      [exists (Decimal.D0 d)|exists (Decimal.D1 d)|exists (Decimal.D2 d)
      |exists (Decimal.D3 d)|exists (Decimal.D4 d)|exists (Decimal.D5 d)
      |exists (Decimal.D6 d)|exists (Decimal.D7 d)|exists (Decimal.D8 d)
      |exists (Decimal.D9 d)|lia].
    all: split; [cbn [Decimal.nb_digits]; now rewrite Hn|].
    all: rewrite DecimalNat.Unsigned.of_lu_eqn;
      cbn [DecimalNat.Unsigned.hd DecimalNat.Unsigned.tl]; rewrite Hv; lia.
Qed.

Lemma string_of_uint_head u n :
  Decimal.nb_digits u = S n ->
  exists ch u',
    NilEmpty.string_of_uint u = String ch (NilEmpty.string_of_uint u')
    /\ Strptime.is_digit ch = true
    /\ Decimal.nb_digits u' = n.
Proof.
  destruct u; cbn [Decimal.nb_digits]; intros H; [discriminate|..].
  all: injection H as H.
  all: eexists _, u; split; [reflexivity|split; [reflexivity|exact H]].
Qed.

Lemma zfill4_shape y :
  y <= 9999 ->
  exists a b c e,
    Strptime.zfill 4 y = String a (String b (String c (String e EmptyString)))
    /\ Strptime.is_digit a = true /\ Strptime.is_digit b = true
    /\ Strptime.is_digit c = true /\ Strptime.is_digit e = true
    /\ Strptime.int_of (String a (String b (String c (String e EmptyString)))) = y.
Proof.
  intros Hy.
  assert (H9 : 9999 < 10 ^ 4) by (apply Nat.ltb_lt; reflexivity).
  destruct (little_digits 4 y ltac:(lia)) as [d [Hn Hv]].
  set (u := Decimal.rev d).
  assert (Hnu : Decimal.nb_digits u = 4).
  { unfold u. now rewrite DecimalFacts.nb_digits_rev. }
  assert (Hvu : Nat.of_uint u = y).
  { unfold u. now rewrite DecimalNat.Unsigned.of_uint_alt, DecimalFacts.rev_rev. }
  assert (Hz : Strptime.zfill 4 y = NilEmpty.string_of_uint u).
  { unfold Strptime.zfill, Strptime.decimal. cbv zeta.
    rewrite <- Hvu, DecimalNat.Unsigned.to_of, <- Hnu.
    apply zero_padding. intros E. rewrite E in Hnu. discriminate. }
  assert (Hi : Strptime.int_of (NilEmpty.string_of_uint u) = y).
  { unfold Strptime.int_of. now rewrite int_of_acc_uint. }
  rewrite Hz, <- Hi.
  destruct (string_of_uint_head u 3 Hnu) as (a & u1 & -> & Ha & H1).
  destruct (string_of_uint_head u1 2 H1) as (b & u2 & -> & Hb & H2).
  destruct (string_of_uint_head u2 1 H2) as (c & u3 & -> & Hc & H3).
  destruct (string_of_uint_head u3 0 H3) as (e & u4 & -> & He & H4).
  apply DecimalFacts.nb_digits_0 in H4. subst u4.
  exists a, b, c, e. repeat split; assumption.
Qed.

Lemma month_day_tail m dd acc :
  1 <= m <= 12 -> 1 <= dd <= 31 ->
  Strptime.match_items
    [Strptime.Lit "-"; Strptime.Dir Strptime.Fm;
     Strptime.Lit "-"; Strptime.Dir Strptime.Fd]
    ("-" ++ Strptime.zfill 2 m ++ "-" ++ Strptime.zfill 2 dd) acc
  = Some (Strptime.set_field Strptime.Fd dd
            (Strptime.set_field Strptime.Fm m acc), EmptyString)
  /\ last_blank ("-" ++ Strptime.zfill 2 m ++ "-" ++ Strptime.zfill 2 dd) = false
  /\ String.length ("-" ++ Strptime.zfill 2 m ++ "-" ++ Strptime.zfill 2 dd) = 6.
Proof.
  intros Hm Hd.
  enum m ltac:(enum dd ltac:(repeat split; reflexivity)).
Qed.

Lemma year_step a b c e rest its acc :
  Strptime.is_digit a = true -> Strptime.is_digit b = true ->
  Strptime.is_digit c = true -> Strptime.is_digit e = true ->
  Strptime.match_items (Strptime.Dir Strptime.FY :: its)
    (String a (String b (String c (String e rest)))) acc
  = Strptime.match_items its rest
      (Strptime.set_field Strptime.FY
         (Strptime.int_of (String a (String b (String c (String e EmptyString)))))
         acc).
Proof.
  intros Ha Hb Hc He.
  cbn [Strptime.match_items Strptime.regex_of Strptime.first_some
       Strptime.match_alt].
  rewrite Ha, Hb, Hc, He.
  now destruct (Strptime.match_items its rest _).
Qed.

Lemma digit_not_space a : Strptime.is_digit a = true -> PyStr.is_space a = false.
Proof.
  destruct a as [[] [] [] [] [] [] [] []]; vm_compute; congruence.
Qed.

Lemma days_in_month_le y m : Strptime.days_in_month y m <= 31.
Proof.
  unfold Strptime.days_in_month.
  do 13 (destruct m as [|m]; [try lia; destruct (Strptime.is_leap y); lia|]).
  lia.
Qed.

Lemma valid_date_bounds d :
  Strptime.valid_date d = true ->
  1 <= Strptime.year d <= 9999
  /\ 1 <= Strptime.month d <= 12
  /\ 1 <= Strptime.day d <= Strptime.days_in_month (Strptime.year d) (Strptime.month d).
Proof.
  unfold Strptime.valid_date. rewrite !andb_true_iff, !Nat.leb_le. lia.
Qed.

Lemma iso_shape d :
  Strptime.valid_date d = true ->
  Strptime.strptime (Strptime.strftime d) "%Y-%m-%d" = Some d
  /\ PyStr.strip (Strptime.strftime d) = Strptime.strftime d
  /\ String.length (Strptime.strftime d) = 10.
Proof.
  intros Hv. destruct (valid_date_bounds d Hv) as (Hy & Hm & Hd).
  destruct d as [y m dd].
  cbn [Strptime.year Strptime.month Strptime.day] in Hy, Hm, Hd.
  pose proof (days_in_month_le y m) as Hle.
  destruct (zfill4_shape y ltac:(lia)) as (a & b & c & e & Hz & Ha & Hb & Hc & He & Hint).
  destruct (month_day_tail m dd
              (Strptime.set_field Strptime.FY y (Strptime.mkdate 1900 1 1))
              Hm ltac:(lia)) as (Ht & Hlast & Hlen).
  unfold Strptime.strftime. cbn [Strptime.year Strptime.month Strptime.day].
  rewrite Hz. cbn [String.append] in Ht, Hlast, Hlen |- *.
  set (t := (Strptime.zfill 2 m ++ _)%string) in *.
  clearbody t. set (tail := String "-" t) in Ht |- *.
  split; [|split].
  - unfold Strptime.strptime.
    replace (Strptime.compile "%Y-%m-%d")
      with (Some [Strptime.Dir Strptime.FY; Strptime.Lit "-";
                  Strptime.Dir Strptime.Fm; Strptime.Lit "-";
                  Strptime.Dir Strptime.Fd]) by reflexivity.
    rewrite (year_step a b c e tail _ _ Ha Hb Hc He), Hint, Ht.
    cbn [Strptime.set_field Strptime.year Strptime.month Strptime.day].
    now rewrite Hv.
  - apply strip_fixed.
    + simpl. now apply digit_not_space.
    + subst tail. cbn [last_blank] in Hlast |- *. exact Hlast.
  - subst tail. cbn [String.length] in Hlen |- *. lia.
Qed.

Lemma iso_date_kept env d :
  Strptime.valid_date d = true ->
  parse_date_flexible env (Strptime.strftime d) = Strptime.strftime d.
Proof.
  intros Hv. destruct (iso_shape d Hv) as (Hp & Hs & Hl).
  unfold parse_date_flexible.
  assert (Hne : String.eqb (Strptime.strftime d) "" = false).
  { apply String.eqb_neq. intros E. rewrite E in Hl. discriminate. }
  assert (Hnan : String.eqb (Strptime.strftime d) "nan" = false).
  { apply String.eqb_neq. intros E. rewrite E in Hl. discriminate. }
  rewrite Hne, Hnan, Hs. cbn [orb]. unfold date_formats.
  cbn [first_format]. now rewrite Hp.
Qed.

(** X14: a valid calendar date from the year 1000 on, in the canonical
    form YYYY-MM-DD, is left as it is by the date parser, and that form
    has ten characters. *)
Theorem canonical_date_is_kept env d :
  Strptime.valid_date d = true ->
  1000 <= Strptime.year d ->
  parse_date_flexible env (Strptime.strftime d) = Strptime.strftime d
  /\ String.length (Strptime.strftime d) = 10.
Proof.
  intros Hv _. split; [now apply iso_date_kept|].
  exact (proj2 (proj2 (iso_shape d Hv))).
Qed.

Lemma canonical_date_is_kept_witness :
  Strptime.valid_date (Strptime.mkdate 2024 2 29) = true
  /\ 1000 <= 2024
  /\ parse_date_flexible Demo.env "2024-02-29" = "2024-02-29".
Proof.
  assert (Hy : 1000 <= 2024) by (apply Nat.leb_le; reflexivity).
  split; [reflexivity|]. split; [exact Hy|].
  exact (proj1 (canonical_date_is_kept Demo.env (Strptime.mkdate 2024 2 29)
                  eq_refl Hy)).
Defined.

Lemma strptime_valid s fmt d :
  Strptime.strptime s fmt = Some d -> Strptime.valid_date d = true.
Proof.
  unfold Strptime.strptime.
  destruct (Strptime.compile fmt); [|discriminate].
  destruct (Strptime.match_items _ s _) as [[d' rest]|]; [|discriminate].
  destruct rest; [|discriminate].
  destruct (Strptime.valid_date d') eqn:E; [|discriminate].
  now intros [= <-].
Qed.

Lemma first_format_valid fmts s d :
  first_format fmts s = Some d -> Strptime.valid_date d = true.
Proof.
  induction fmts as [|fmt fmts IH]; simpl; [discriminate|].
  destruct (Strptime.strptime s fmt) eqn:E; [|exact IH].
  intros [= <-]. exact (strptime_valid _ _ _ E).
Qed.

Lemma map_cells_ext_in {A B} (f g : string -> A -> B) (df : Frame A) :
  (forall r c v, In r (data df) -> In (c, v) (combine (columns df) r) ->
                 f c v = g c v) ->
  map_cells f df = map_cells g df.
Proof.
  intros H. unfold map_cells. f_equal. apply map_ext_in. intros r Hr.
  apply map_ext_in. intros [c v] Hcv. now apply (H r).
Qed.

Section DateIdempotence.

Variable cfg : Config.
Variable env : Env.

(** The fallback parser only returns calendar dates, from the year 1000
    on (a pandas Timestamp starts in 1677). *)
Hypothesis fallback_valid :
  forall s dt, to_datetime env s = Some dt ->
               Strptime.valid_date dt = true /\ 1000 <= Strptime.year dt.

Lemma parse_date_flexible_idempotent s :
  parse_date_flexible env (parse_date_flexible env s) = parse_date_flexible env s.
Proof.
  assert (Hkept : forall d, Strptime.valid_date d = true ->
                  parse_date_flexible env (Strptime.strftime d) = Strptime.strftime d).
  { intros d Hd. now apply iso_date_kept. }
  unfold parse_date_flexible at 2 3.
  destruct (String.eqb s "" || String.eqb s "nan"); [reflexivity|].
  destruct (first_format date_formats (PyStr.strip s)) as [d|] eqn:E.
  - apply Hkept. exact (first_format_valid _ _ _ E).
  - destruct (to_datetime env s) as [d|] eqn:Et; [|reflexivity].
    apply Hkept. exact (proj1 (fallback_valid _ _ Et)).
Qed.

(** X15: when the fallback parser only returns calendar dates from the
    year 1000 on, parsing a second time changes nothing for a text that
    no explicit format reads as a date before the year 1000: in a cell,
    and in a frame that [process_date_columns] has returned when the
    cells of its date columns are such texts. *)
Theorem date_stage_idempotent :
  (forall s,
      from_year_1000 s = true ->
      parse_date_flexible env (parse_date_flexible env s)
      = parse_date_flexible env s)
  /\ (forall df df',
        (forall r c v, In r (data df) -> In (c, v) (combine (columns df) r) ->
                       In c (DATE_COLUMNS cfg) -> from_year_1000 v = true) ->
        process_date_columns cfg env df = Ok df' ->
        process_date_columns cfg env df' = Ok df').
Proof.
  split; [intros s _; apply parse_date_flexible_idempotent|].
  intros df df' Hcells. unfold process_date_columns.
  destruct (ambiguous (DATE_COLUMNS cfg) (columns df)) eqn:E; [discriminate|].
  intros H. injection H as <-. simpl. rewrite E. f_equal.
  rewrite map_cells_compose. apply map_cells_ext_in. intros r c v Hr Hcv.
  destruct (PyStr.mem c (DATE_COLUMNS cfg)); [|reflexivity].
  apply parse_date_flexible_idempotent.
Qed.

End DateIdempotence.

Lemma date_stage_idempotent_witness :
  (forall s dt,
      to_datetime
        (mkEnv Demo.chardet_detect Demo.read_csv
               (fun s => if String.eqb s "Jan 15, 2024"
                         then Some (Strptime.mkdate 2024 1 15) else None)
               Demo.to_numeric Demo.to_csv (fun _ => None)) s = Some dt ->
      Strptime.valid_date dt = true /\ 1000 <= Strptime.year dt)
  /\ from_year_1000 "03/04/2024" = true
  /\ parse_date_flexible
       (mkEnv Demo.chardet_detect Demo.read_csv
              (fun s => if String.eqb s "Jan 15, 2024"
                        then Some (Strptime.mkdate 2024 1 15) else None)
              Demo.to_numeric Demo.to_csv (fun _ => None))
       "2024-03-04"
     = "2024-03-04".
Proof.
  assert (Hfb : forall s dt,
      to_datetime
        (mkEnv Demo.chardet_detect Demo.read_csv
               (fun s => if String.eqb s "Jan 15, 2024"
                         then Some (Strptime.mkdate 2024 1 15) else None)
               Demo.to_numeric Demo.to_csv (fun _ => None)) s = Some dt ->
      Strptime.valid_date dt = true /\ 1000 <= Strptime.year dt).
  { intros s dt. simpl. destruct (String.eqb s "Jan 15, 2024"); [|discriminate].
    intros [= <-]. split; [reflexivity|]. apply Nat.leb_le. reflexivity. }
  assert (Hy : from_year_1000 "03/04/2024" = true) by (vm_compute; reflexivity).
  split; [exact Hfb|]. split; [exact Hy|].
  exact (proj1 (date_stage_idempotent config _ Hfb) "03/04/2024" Hy).
Defined.

(** ** Month first *)

Lemma first_some_inv {A B} (k : A -> option B) xs b :
  Strptime.first_some k xs = Some b -> exists x, In x xs /\ k x = Some b.
Proof.
  induction xs as [|x xs IH]; simpl; [discriminate|].
  destruct (k x) eqn:E.
  - intros [= <-]. exists x. split; [now left|assumption].
  - intros H. destruct (IH H) as [x' [Hin Hk]]. exists x'. split; [now right|assumption].
Qed.

Lemma match_items_dir_inv f r s acc b :
  Strptime.match_items (Strptime.Dir f :: r) s acc = Some b ->
  exists a m s',
    In a (Strptime.regex_of f)
    /\ Strptime.match_alt a s = Some (m, s')
    /\ Strptime.match_items r s' (Strptime.set_field f (Strptime.int_of m) acc) = Some b.
Proof.
  cbn [Strptime.match_items]. intros H.
  apply first_some_inv in H. destruct H as [a [Ha H]].
  destruct (Strptime.match_alt a s) as [[m s']|] eqn:E; [|discriminate].
  exists a, m, s'. repeat split; assumption.
Qed.

Lemma match_items_lit_inv c r s acc b :
  Strptime.match_items (Strptime.Lit c :: r) s acc = Some b ->
  exists t, s = String c t /\ Strptime.match_items r t acc = Some b.
Proof.
  cbn [Strptime.match_items]. destruct s as [|c' t]; [discriminate|].
  destruct (Ascii.eqb_spec c c') as [<-|_]; [|discriminate].
  intros H. exists t. split; [reflexivity|assumption].
Qed.

Lemma match_alt1_inv p s m r :
  Strptime.match_alt [p] s = Some (m, r) ->
  exists x, s = String x r /\ m = String x EmptyString /\ p x = true.
Proof.
  simpl. destruct s as [|x t]; [discriminate|].
  destruct (p x) eqn:E; [|discriminate]. intros [= <- <-].
  exists x. repeat split. assumption.
Qed.

Lemma match_alt2_inv p q s m r :
  Strptime.match_alt [p; q] s = Some (m, r) ->
  exists x y, s = String x (String y r)
              /\ m = String x (String y EmptyString)
              /\ p x = true /\ q y = true.
Proof.
  simpl. destruct s as [|x [|y t]]; try discriminate.
  - destruct (p x); discriminate.
  - destruct (p x) eqn:Ep; [|discriminate].
    destruct (q y) eqn:Eq; [|discriminate]. intros [= <- <-].
    exists x, y. repeat split; assumption.
Qed.

Lemma in_range_cases lo hi x :
  Strptime.in_range lo hi x = true ->
  In x (map ascii_of_nat
            (seq (nat_of_ascii lo) (S (nat_of_ascii hi) - nat_of_ascii lo))).
Proof.
  unfold Strptime.in_range. rewrite andb_true_iff, !Nat.leb_le. intros [H1 H2].
  rewrite <- (ascii_nat_embedding x). apply in_map. apply in_seq. lia.
Qed.

Ltac class_cases H :=
  first
    [ apply Ascii.eqb_eq in H; subst
    | apply in_range_cases in H; vm_compute in H;
      repeat (destruct H as [<-|H]); try contradiction ].

Ltac alt_cases Hm Hhead :=
  first
    [ apply match_alt2_inv in Hm;
      let x := fresh "x" in let y := fresh "y" in
      let Hx := fresh "Hx" in let Hy := fresh "Hy" in
      destruct Hm as (x & y & -> & -> & Hx & Hy);
      class_cases Hx; class_cases Hy
    | apply match_alt1_inv in Hm;
      let x := fresh "x" in let Hx := fresh "Hx" in
      destruct Hm as (x & -> & -> & Hx);
      class_cases Hx ];
  try (exfalso; cbn in Hhead; discriminate).

Lemma mi_lit c c' r t acc :
  Strptime.match_items (Strptime.Lit c :: r) (String c' t) acc
  = if Ascii.eqb c c' then Strptime.match_items r t acc else None.
Proof. reflexivity. Qed.

Lemma mi_dir f r s acc :
  Strptime.match_items (Strptime.Dir f :: r) s acc
  = Strptime.first_some
      (fun a => match Strptime.match_alt a s with
                | Some (m, s') =>
                    Strptime.match_items r s'
                      (Strptime.set_field f (Strptime.int_of m) acc)
                | None => None
                end)
      (Strptime.regex_of f).
Proof. reflexivity. Qed.

Ltac run_prefix H :=
  cbv -[Strptime.match_items] in H;
  repeat (first [rewrite mi_dir | rewrite mi_lit]; cbv -[Strptime.match_items]);
  rewrite H; reflexivity.

Ltac run_none :=
  repeat (first [rewrite mi_dir | rewrite mi_lit]; cbv -[Strptime.match_items]);
  reflexivity.

(** A text that the day-first pattern with separator [sep] matches: no
    pattern starting with the year matches it; with a dash, no slash
    pattern does; and when the day is at most 12 the month-first pattern
    matches it too, with day and month exchanged. *)
Lemma day_month_prefix sep its s acc r :
  sep = "/"%char \/ sep = "-"%char ->
  head_blank s = false ->
  Strptime.match_items
    (Strptime.Dir Strptime.Fd :: Strptime.Lit sep
     :: Strptime.Dir Strptime.Fm :: Strptime.Lit sep :: its) s acc = Some r ->
  exists dd mm s3,
    Strptime.match_items its s3
      (Strptime.set_field Strptime.Fm mm (Strptime.set_field Strptime.Fd dd acc))
    = Some r
    /\ (forall its0 acc0,
          Strptime.match_items (Strptime.Dir Strptime.FY :: its0) s acc0 = None)
    /\ (sep = "-"%char ->
        forall f its0 acc0,
          Strptime.match_items (Strptime.Dir f :: Strptime.Lit "/" :: its0) s acc0
          = None)
    /\ (dd <= 12 ->
        forall its' r',
          Strptime.match_items its' s3
            (Strptime.set_field Strptime.Fd mm (Strptime.set_field Strptime.Fm dd acc))
          = Some r' ->
          Strptime.match_items
            (Strptime.Dir Strptime.Fm :: Strptime.Lit sep
             :: Strptime.Dir Strptime.Fd :: Strptime.Lit sep :: its') s acc
          = Some r').
Proof.
  intros Hsep Hhead H.
  apply match_items_dir_inv in H. destruct H as (a1 & m1 & s1 & Ha1 & Hm1 & H).
  apply match_items_lit_inv in H. destruct H as (s2 & -> & H).
  apply match_items_dir_inv in H. destruct H as (a2 & m2 & s3' & Ha2 & Hm2 & H).
  apply match_items_lit_inv in H. destruct H as (s3 & -> & H).
  exists (Strptime.int_of m1), (Strptime.int_of m2), s3.
  split; [exact H|]. clear H.
  cbn [Strptime.regex_of In] in Ha1, Ha2.
  destruct Ha1 as [<-|[<-|[<-|[<-|[<-|[]]]]]]; alt_cases Hm1 Hhead.
  all: split;
    [ intros its0 acc0; destruct Hsep as [-> | ->]; run_none
    | split;
      [ intros Hdash f its0 acc0; subst sep; destruct f; run_none
      | intros Hle its' r' H';
        first
          [ exfalso; vm_compute in Hle; lia
          | destruct Ha2 as [<-|[<-|[<-|[]]]]; alt_cases Hm2 Hhead;
            destruct Hsep as [-> | ->]; run_prefix H' ] ] ].
Qed.

Lemma year_last ys :
  (exists v rest, forall acc,
      Strptime.match_items [Strptime.Dir Strptime.FY] ys acc
      = Some (Strptime.set_field Strptime.FY v acc, rest))
  \/ (forall acc, Strptime.match_items [Strptime.Dir Strptime.FY] ys acc = None).
Proof.
  cbn [Strptime.match_items Strptime.first_some Strptime.regex_of].
  destruct (Strptime.match_alt _ ys) as [[m rest]|].
  - left. exists (Strptime.int_of m), rest. reflexivity.
  - right. reflexivity.
Qed.

Lemma days_in_month_ge y m : 1 <= m <= 12 -> 28 <= Strptime.days_in_month y m.
Proof.
  intros Hm. unfold Strptime.days_in_month.
  enum m ltac:(try destruct (Strptime.is_leap y); lia).
Qed.

Lemma valid_swap y m dd :
  Strptime.valid_date (Strptime.mkdate y m dd) = true ->
  dd <= 12 ->
  Strptime.valid_date (Strptime.mkdate y dd m) = true.
Proof.
  intros Hv Hle. destruct (valid_date_bounds _ Hv) as (Hy & Hm & Hd).
  cbn [Strptime.year Strptime.month Strptime.day] in Hy, Hm, Hd.
  pose proof (days_in_month_ge y dd ltac:(lia)).
  unfold Strptime.valid_date.
  cbn [Strptime.year Strptime.month Strptime.day].
  rewrite !andb_true_iff, !Nat.leb_le. lia.
Qed.

(** What a match of a day-first pattern gives for the month-first
    pattern with the same separator and for the patterns tried before
    it. *)
Lemma day_first_parse sep fmt_dmy fmt_mdy s d :
  sep = "/"%char \/ sep = "-"%char ->
  Strptime.compile fmt_dmy
  = Some [Strptime.Dir Strptime.Fd; Strptime.Lit sep; Strptime.Dir Strptime.Fm;
          Strptime.Lit sep; Strptime.Dir Strptime.FY] ->
  Strptime.compile fmt_mdy
  = Some [Strptime.Dir Strptime.Fm; Strptime.Lit sep; Strptime.Dir Strptime.Fd;
          Strptime.Lit sep; Strptime.Dir Strptime.FY] ->
  head_blank s = false ->
  Strptime.strptime s fmt_dmy = Some d ->
  (forall its0 acc0,
      Strptime.match_items (Strptime.Dir Strptime.FY :: its0) s acc0 = None)
  /\ (sep = "-"%char ->
      forall f its0 acc0,
        Strptime.match_items (Strptime.Dir f :: Strptime.Lit "/" :: its0) s acc0
        = None)
  /\ (Strptime.day d <= 12 ->
      Strptime.strptime s fmt_mdy
      = Some (Strptime.mkdate (Strptime.year d) (Strptime.day d) (Strptime.month d))).
Proof.
  intros Hsep Hc1 Hc2 Hhead H. unfold Strptime.strptime in *.
  rewrite Hc1 in H. rewrite Hc2.
  destruct (Strptime.match_items _ s _) as [[d' rest]|] eqn:E; [|discriminate].
  destruct rest; [|discriminate].
  destruct (Strptime.valid_date d') eqn:Hv; [|discriminate].
  injection H as ->.
  destruct (day_month_prefix sep _ s _ _ Hsep Hhead E)
    as (dd & mm & s3 & E3 & Hyear & Hslash & Hswap).
  split; [exact Hyear|]. split; [exact Hslash|].
  destruct (year_last s3) as [(v & rest & Hy)|Hy]; rewrite Hy in E3;
    [|discriminate].
  injection E3 as <- ->.
  cbn [Strptime.set_field Strptime.year Strptime.month Strptime.day] in *.
  intros Hle.
  rewrite (Hswap Hle [Strptime.Dir Strptime.FY] _ (Hy _)).
  cbn [Strptime.set_field Strptime.year Strptime.month Strptime.day].
  now rewrite (valid_swap v mm dd Hv Hle).
Qed.

(** X16: for a text of characters below U+0100 (the strings of this
    model), if the day-first slash or dash pattern reads the trimmed
    text with a day of at most 12, the format loop never returns that
    reading: the month-first pattern of the same separator, earlier in
    the list, reads the text too, and the date returned has the first
    number as the month.  From the year 1000 on the result of
    [parse_date_flexible] is that date in the form YYYY-MM-DD.  The
    day-first patterns decide only texts whose first number is above
    12. *)
Theorem ambiguous_dates_are_month_first env s d :
  s <> "" -> s <> "nan" ->
  Strptime.strptime (PyStr.strip s) "%d/%m/%Y" = Some d
  \/ Strptime.strptime (PyStr.strip s) "%d-%m-%Y" = Some d ->
  Strptime.day d <= 12 ->
  first_format date_formats (PyStr.strip s)
  = Some (Strptime.mkdate (Strptime.year d) (Strptime.day d) (Strptime.month d))
  /\ (1000 <= Strptime.year d ->
      parse_date_flexible env s
      = Strptime.strftime
          (Strptime.mkdate (Strptime.year d) (Strptime.day d) (Strptime.month d))).
Proof.
  intros Hne Hnan H Hle.
  destruct (strip_ends s) as [Hhead _].
  assert (Hfirst : first_format date_formats (PyStr.strip s)
                   = Some (Strptime.mkdate (Strptime.year d) (Strptime.day d)
                                           (Strptime.month d))).
  2:{ split; [exact Hfirst|]. intros _. unfold parse_date_flexible.
      apply String.eqb_neq in Hne. apply String.eqb_neq in Hnan.
      now rewrite Hne, Hnan, Hfirst. }
  unfold date_formats. cbn [first_format].
  destruct H as [H|H].
  - destruct (day_first_parse "/" "%d/%m/%Y" "%m/%d/%Y" _ d
                (or_introl eq_refl) eq_refl eq_refl Hhead H)
      as (Hyear & _ & Hswap).
    assert (H1 : Strptime.strptime (PyStr.strip s) "%Y-%m-%d" = None).
    { unfold Strptime.strptime.
      replace (Strptime.compile "%Y-%m-%d")
        with (Some [Strptime.Dir Strptime.FY; Strptime.Lit "-";
                    Strptime.Dir Strptime.Fm; Strptime.Lit "-";
                    Strptime.Dir Strptime.Fd]) by reflexivity.
      now rewrite Hyear. }
    now rewrite H1, (Hswap Hle).
  - destruct (day_first_parse "-" "%d-%m-%Y" "%m-%d-%Y" _ d
                (or_intror eq_refl) eq_refl eq_refl Hhead H)
      as (Hyear & Hslash & Hswap).
    specialize (Hslash eq_refl).
    assert (H1 : Strptime.strptime (PyStr.strip s) "%Y-%m-%d" = None).
    { unfold Strptime.strptime.
      replace (Strptime.compile "%Y-%m-%d")
        with (Some [Strptime.Dir Strptime.FY; Strptime.Lit "-";
                    Strptime.Dir Strptime.Fm; Strptime.Lit "-";
                    Strptime.Dir Strptime.Fd]) by reflexivity.
      now rewrite Hyear. }
    assert (H2 : Strptime.strptime (PyStr.strip s) "%m/%d/%Y" = None).
    { unfold Strptime.strptime.
      replace (Strptime.compile "%m/%d/%Y")
        with (Some [Strptime.Dir Strptime.Fm; Strptime.Lit "/";
                    Strptime.Dir Strptime.Fd; Strptime.Lit "/";
                    Strptime.Dir Strptime.FY]) by reflexivity.
      now rewrite Hslash. }
    assert (H3 : Strptime.strptime (PyStr.strip s) "%d/%m/%Y" = None).
    { unfold Strptime.strptime.
      replace (Strptime.compile "%d/%m/%Y")
        with (Some [Strptime.Dir Strptime.Fd; Strptime.Lit "/";
                    Strptime.Dir Strptime.Fm; Strptime.Lit "/";
                    Strptime.Dir Strptime.FY]) by reflexivity.
      now rewrite Hslash. }
    assert (H4 : Strptime.strptime (PyStr.strip s) "%Y/%m/%d" = None).
    { unfold Strptime.strptime.
      replace (Strptime.compile "%Y/%m/%d")
        with (Some [Strptime.Dir Strptime.FY; Strptime.Lit "/";
                    Strptime.Dir Strptime.Fm; Strptime.Lit "/";
                    Strptime.Dir Strptime.Fd]) by reflexivity.
      now rewrite Hyear. }
    now rewrite H1, H2, H3, H4, (Hswap Hle).
Qed.

Lemma ambiguous_dates_are_month_first_witness :
  Strptime.strptime (PyStr.strip " 7-8-2023 ") "%d-%m-%Y"
  = Some (Strptime.mkdate 2023 8 7)
  /\ first_format date_formats (PyStr.strip " 7-8-2023 ")
     = Some (Strptime.mkdate 2023 7 8)
  /\ parse_date_flexible Demo.env " 7-8-2023 " = "2023-07-08".
Proof.
  assert (Hd : Strptime.strptime (PyStr.strip " 7-8-2023 ") "%d-%m-%Y"
               = Some (Strptime.mkdate 2023 8 7)) by (vm_compute; reflexivity).
  assert (Hle : Strptime.day (Strptime.mkdate 2023 8 7) <= 12) by (simpl; lia).
  destruct (ambiguous_dates_are_month_first Demo.env " 7-8-2023 "
              (Strptime.mkdate 2023 8 7)
              ltac:(discriminate) ltac:(discriminate) (or_intror Hd) Hle)
    as [Hfirst Hparse].
  split; [exact Hd|]. split; [exact Hfirst|].
  apply Hparse. apply Nat.leb_le. reflexivity.
Defined.

(** ** What the cells of the output are *)

Lemma output_cell cfg env raw df r c v :
  pipeline cfg env raw = Ok df ->
  In r (data df) -> In (c, v) (combine (columns df) r) ->
  exists v0, v = coerce cfg env c v0.
Proof.
  intros H Hr Hin. rewrite (pipeline_fused cfg env raw df H) in *.
  simpl in Hr, Hin. apply in_map_iff in Hr. destruct Hr as [r0 [<- _]].
  apply (combine_map_cells (coerce cfg env)) in Hin.
  destruct Hin as [v0 [_ ->]]. now exists v0.
Qed.

Lemma mask_incl {A} keep (hdr : list string) :
  forall (r : list A) x, In x (mask keep hdr r) -> In x r.
Proof.
  induction hdr as [|h hdr IH]; intros [|v r] x; simpl; try contradiction.
  destruct (keep h); simpl; intros H.
  - destruct H as [<-|H]; [now left|right; now apply IH].
  - right. now apply IH.
Qed.

Lemma pick_incl {A} ps (r : list A) x : In x (pick ps r) -> In x r.
Proof.
  unfold pick. rewrite in_flat_map. intros [i [_ H]].
  destruct (nth_error r i) as [y|] eqn:E; [|contradiction].
  destruct H as [<-|[]]. exact (nth_error_In r i E).
Qed.

Lemma drop_loop_cells {A} (drops : list string) :
  forall (d : Frame A) r,
    In r (data (fold_left (fun d col => if PyStr.mem col (columns d)
                                        then drop_column col d else d)
                          drops d)) ->
    exists r0, In r0 (data d) /\ forall x, In x r -> In x r0.
Proof.
  induction drops as [|col drops IH]; intros d r Hr; simpl in Hr.
  - exists r. split; [assumption|auto].
  - destruct (IH _ r Hr) as [r1 [Hr1 Hsub]].
    destruct (PyStr.mem col (columns d)).
    + simpl in Hr1. apply in_map_iff in Hr1. destruct Hr1 as [r0 [<- Hr0]].
      exists r0. split; [assumption|].
      intros x Hx. eapply mask_incl. now apply Hsub.
    + exists r1. split; assumption.
Qed.

Lemma front_cells cfg (raw : Frame string) r :
  In r (data (filter_and_rename_columns cfg (clean_column_names raw))) ->
  exists r0, In r0 (data raw) /\ forall x, In x r -> In x r0.
Proof.
  unfold filter_and_rename_columns, retained. cbn [data]. intros Hr.
  apply drop_loop_cells in Hr. destruct Hr as [r1 [Hr1 Hsub1]].
  unfold select in Hr1. cbn [data] in Hr1.
  apply in_map_iff in Hr1. destruct Hr1 as [r2 [<- Hr2]].
  unfold clean_column_names, keep_columns in Hr2. cbn [data] in Hr2.
  apply in_map_iff in Hr2. destruct Hr2 as [r0 [<- Hr0]].
  exists r0. split; [assumption|].
  intros x Hx. eapply mask_incl. eapply pick_incl. now apply Hsub1.
Qed.

Lemma output_cell_raw cfg env raw df r c v :
  pipeline cfg env raw = Ok df ->
  In r (data df) -> In (c, v) (combine (columns df) r) ->
  exists r0 v0, In r0 (data raw) /\ In v0 r0 /\ v = coerce cfg env c v0.
Proof.
  intros H Hr Hin. rewrite (pipeline_fused cfg env raw df H) in *.
  simpl in Hr, Hin. apply in_map_iff in Hr. destruct Hr as [r2 [<- Hr2]].
  apply (combine_map_cells (coerce cfg env)) in Hin.
  destruct Hin as [v0 [Hv0 ->]].
  destruct (front_cells cfg raw r2 Hr2) as [r0 [Hr0 Hsub]].
  exists r0, v0. split; [assumption|]. split; [|reflexivity].
  apply Hsub. exact (in_combine_r _ _ _ _ Hv0).
Qed.

(** X17: when the fallback parser only returns calendar dates from the
    year 1000 on and no cell read is a text that an explicit format
    reads as a date before the year 1000, a cell of a date column of the
    pipeline's output (a column not also numeric) is the empty string
    or a valid calendar date, of the year 1000 or later, written
    YYYY-MM-DD, ten characters long. *)
Theorem date_cells_are_canonical cfg env raw df r c v :
  (forall x dt, to_datetime env x = Some dt ->
                Strptime.valid_date dt = true /\ 1000 <= Strptime.year dt) ->
  (forall r0 x, In r0 (data raw) -> In x r0 ->
                from_year_1000 (clean_cell x) = true) ->
  pipeline cfg env raw = Ok df ->
  In r (data df) -> In (c, v) (combine (columns df) r) ->
  In c (DATE_COLUMNS cfg) -> ~ In c (NUMERIC_COLUMNS cfg) ->
  v = Str ""
  \/ exists d, Strptime.valid_date d = true
               /\ 1000 <= Strptime.year d
               /\ v = Str (Strptime.strftime d)
               /\ String.length (Strptime.strftime d) = 10.
Proof.
  intros Hfb Hcells H Hr Hin Hdate Hnum.
  destruct (output_cell_raw cfg env raw df r c v H Hr Hin)
    as (r0 & v0 & Hr0 & Hv0 & ->).
  specialize (Hcells r0 v0 Hr0 Hv0).
  unfold coerce. apply mem_In in Hdate. apply mem_false in Hnum.
  rewrite Hdate, Hnum. unfold parse_date_flexible.
  destruct (String.eqb (clean_cell v0) "" || String.eqb (clean_cell v0) "nan");
    [now left|].
  unfold from_year_1000 in Hcells.
  destruct (first_format date_formats (PyStr.strip (clean_cell v0)))
    as [d|] eqn:E.
  - right. exists d. apply Nat.leb_le in Hcells.
    pose proof (first_format_valid _ _ _ E) as Hd.
    repeat split; try assumption.
    exact (proj2 (proj2 (iso_shape d Hd))).
  - destruct (to_datetime env (clean_cell v0)) as [d|] eqn:Et; [|now left].
    right. exists d. destruct (Hfb _ _ Et) as [Hd Hy].
    repeat split; try assumption.
    exact (proj2 (proj2 (iso_shape d Hd))).
Qed.

Lemma date_cells_are_canonical_witness :
  pipeline config Demo.env
    (mkFrame ["Material"; "Delivery Date"] [["M2"; " 7-8-2023 "]])
  = Ok (mkFrame ["material_id"; "delivery_date"] [[Str "M2"; Str "2023-07-08"]])
  /\ (Str "2023-07-08" = Str ""
      \/ exists d, Strptime.valid_date d = true
                   /\ 1000 <= Strptime.year d
                   /\ Str "2023-07-08" = Str (Strptime.strftime d)
                   /\ String.length (Strptime.strftime d) = 10).
Proof.
  split; [vm_compute; reflexivity|].
  apply (date_cells_are_canonical config Demo.env
           (mkFrame ["Material"; "Delivery Date"] [["M2"; " 7-8-2023 "]])
           (mkFrame ["material_id"; "delivery_date"] [[Str "M2"; Str "2023-07-08"]])
           [Str "M2"; Str "2023-07-08"] "delivery_date").
  - intros x dt H. discriminate.
  - intros r0 x [<-|[]] [<-|[<-|[]]]; vm_compute; reflexivity.
  - vm_compute. reflexivity.
  - now left.
  - simpl. right. now left.
  - vm_compute. tauto.
  - vm_compute. intuition discriminate.
Defined.

(** X18: in the pipeline's output a cell of a numeric column is a number
    or absent, never text; a cell of any other column is text, never
    absent; and in a column that is neither numeric nor a date column
    the text has no blank at either end and is never the literal
    "nan". *)
Theorem output_cells_are_typed cfg env raw df r c v :
  pipeline cfg env raw = Ok df ->
  In r (data df) -> In (c, v) (combine (columns df) r) ->
  (In c (NUMERIC_COLUMNS cfg) -> v = Null \/ exists n, v = Num n)
  /\ (~ In c (NUMERIC_COLUMNS cfg) ->
      exists t, v = Str t
                /\ (~ In c (DATE_COLUMNS cfg) ->
                    head_blank t = false /\ last_blank t = false /\ t <> "nan")).
Proof.
  intros H Hr Hin.
  destruct (output_cell cfg env raw df r c v H Hr Hin) as [v0 ->].
  unfold coerce. split.
  - intros Hnum. apply mem_In in Hnum. rewrite Hnum. unfold numeric_cell.
    destruct (String.eqb _ ""); [now left|].
    destruct (to_numeric env _) as [n|]; [right; now exists n|now left].
  - intros Hnum. apply mem_false in Hnum. rewrite Hnum.
    eexists. split; [reflexivity|].
    intros Hdate. apply mem_false in Hdate. rewrite Hdate.
    destruct (clean_cell_ends v0) as [Hh Hl].
    repeat split; try assumption.
    unfold clean_cell. destruct (String.eqb (PyStr.strip v0) "nan") eqn:E.
    + discriminate.
    + now apply String.eqb_neq.
Qed.

Lemma output_cells_are_typed_witness :
  pipeline config Demo.env
    (mkFrame ["Material"; "Quantity"] [[" nan "; "1,234"]])
  = Ok (mkFrame ["material_id"; "quantity"] [[Str ""; Num (Int64 1234)]])
  /\ (In "quantity" (NUMERIC_COLUMNS config) ->
      Num (Int64 1234) = Null \/ exists n, Num (Int64 1234) = Num n).
Proof.
  split; [vm_compute; reflexivity|].
  refine (proj1 (output_cells_are_typed config Demo.env
                   (mkFrame ["Material"; "Quantity"] [[" nan "; "1,234"]])
                   (mkFrame ["material_id"; "quantity"] [[Str ""; Num (Int64 1234)]])
                   [Str ""; Num (Int64 1234)] "quantity" (Num (Int64 1234))
                   _ _ _)).
  - vm_compute. reflexivity.
  - now left.
  - simpl. right. now left.
Defined.

(** ** The fixed encodings behind the guess *)

(** X19: the guess of [detect_encoding] is never the empty string, and
    it is "utf-8" whenever the detection raises or finds nothing.
    Whatever the guess, a file that one of the fixed encodings "utf-8",
    "latin1" and "cp1252" reads is read: [read_csv_with_fallback]
    returns a frame. *)
Theorem fixed_encodings_back_the_guess env f :
  detect_encoding env f <> ""
  /\ (chardet_detect env (String.substring 0 10000 (f_bytes f)) = Ok None
      \/ chardet_detect env (String.substring 0 10000 (f_bytes f)) = Ok (Some "")
      \/ (exists msg,
             chardet_detect env (String.substring 0 10000 (f_bytes f)) = Raise msg) ->
      detect_encoding env f = "utf-8")
  /\ (forall e df,
         In e ["utf-8"; "latin1"; "cp1252"] ->
         read_csv env (f_bytes f) e = Parsed df ->
         exists df', read_csv_with_fallback env f = Ok df').
Proof.
  split; [|split].
  - unfold detect_encoding.
    destruct (chardet_detect env _) as [[e|]|msg]; try discriminate.
    destruct (String.eqb_spec e ""); [discriminate|assumption].
  - intros H. unfold detect_encoding.
    destruct H as [->|[->|[msg ->]]]; reflexivity.
  - intros e df He Hread. unfold read_csv_with_fallback.
    destruct (snd (try_encodings env (f_bytes f) (encodings env f))) as [df'|] eqn:E.
    + now exists df'.
    + exfalso.
      apply (proj1 (try_encodings_fail env (f_bytes f) (encodings env f)) E e)
        with (d := df); [|assumption].
      unfold encodings. now right.
Qed.
